(** * osquery filesystem helpers: a shallow embedding and its properties

    The development follows [osquery/filesystem/filesystem.cpp].  Every
    function of that file which talks to the operating system or to a
    library is embedded as a program over an explicit signature of calls
    ([call]); a program is a finite tree of calls ([Sys]) that an
    interpreter ([run]) executes against a handler.  Properties that hold
    whatever the operating system answers are proved for every handler;
    properties that speak about files, directories and permissions are
    proved against [Os.World], a model of the POSIX calls and of the
    Boost.Filesystem and iostream operations the source uses. *)

From Stdlib Require Import ZArith String Ascii List Bool Lia.
From stdpp Require Import gmap strings list fin_maps.

Set Warnings "-register-all".

Local Open Scope string_scope.
Local Open Scope list_scope.

(** ** Status (osquery/status.h): a code and a message; [ok] is [code == 0]. *)

Record Status : Type := mkStatus { getCode : Z; getMessage : string }.

Definition ok (s : Status) : bool := (getCode s =? 0)%Z.

(** ** Machine integers of the source *)

(** [int len = file_h.tellg()]: conversion of a stream offset to a 32-bit
    signed [int], wrap-around written out. *)
Definition to_int (z : Z) : Z := ((z + 2 ^ 31) mod 2 ^ 32 - 2 ^ 31)%Z.

(** [bytes != content.size()]: the signed result of [write] is converted to
    [size_t] (64 bits, unsigned) before the comparison. *)
Definition to_size_t (z : Z) : Z := (z mod 2 ^ 64)%Z.

(** [std::string::size]. *)
Definition string_size (s : string) : Z := Z.of_nat (String.length s).

(** Open flags of [<fcntl.h>] (Linux values). *)
Definition O_WRONLY : Z := 1.
Definition O_CREAT : Z := 64.
Definition O_APPEND : Z := 1024.

(** ** Byte strings *)

Fixpoint str_take (n : nat) (s : string) : string :=
  match n, s with
  | S n', String c r => String c (str_take n' r)
  | _, _ => ""
  end.

Fixpoint str_drop (n : nat) (s : string) : string :=
  match n, s with
  | S n', String _ r => str_drop n' r
  | _, _ => s
  end.

(** [std::string::assign(const char* buffer, size_t len)]: the first [len]
    characters of the buffer. *)
Definition assign (buffer : string) (len : Z) : string :=
  str_take (Z.to_nat len) buffer.

(** [std::vector::push_back]. *)
Definition push_back {A : Type} (v : list A) (x : A) : list A := v ++ [x].

(** ** Exceptions and replies of library calls *)

(** The C++ exceptions that occur in the file.  [what] is the text that
    [e.what()] returns. *)
Inductive exn : Type :=
| filesystem_error (what : string)
| bad_array_new_length.

(** A library call that can throw answers with a value or with the text of
    the exception it raised. *)
Inductive reply (A : Type) : Type :=
| Value (a : A)
| Raised (what : string).
Arguments Value {A} a.
Arguments Raised {A} what.

(** The run of a [boost::filesystem::directory_iterator] over a directory,
    from its construction to the end iterator or to the first
    [filesystem_error]: the path strings of the entries it yielded, in
    order, and the error text if construction or an increment threw. *)
Record dir_walk : Type := mkWalk { yielded : list string; failure : option string }.

(** ** The calls the source makes *)

Inductive call : Type -> Type :=
(* POSIX *)
| c_open (path : string) (flags mode : Z) : call Z
| c_chmod (path : string) (mode : Z) : call Z
| c_write (fd : Z) (buf : string) (count : Z) : call Z
| c_close (fd : Z) : call Z
(* Boost.Filesystem *)
| fs_exists (path : string) : call (reply bool)
| fs_is_directory (path : string) : call (reply bool)
| fs_directory_iterator (path : string) : call dir_walk
(* std::ifstream file_h; the answers that are [bool] are the state of the
   stream, [bool(file_h)], after the operation *)
| ifs_open (path : string) : call bool
| ifs_seekg_end_tellg : call Z
| ifs_seekg_beg : call unit
| ifs_read (n : Z) : call (string * bool)
| ifs_close : call unit
(* glog *)
| log_error (msg : string) : call unit.

(** Programs: finite trees of calls that end in a returned value or in an
    exception that leaves the function. *)
Inductive Sys (A : Type) : Type :=
| Ret (a : A)
| Throw (e : exn)
| Call {X : Type} (c : call X) (k : X -> Sys A).
Arguments Ret {A} a.
Arguments Throw {A} e.
Arguments Call {A X} c k.

Fixpoint bind {A B : Type} (m : Sys A) (f : A -> Sys B) : Sys B :=
  match m with
  | Ret a => f a
  | Throw e => Throw e
  | Call c k => Call c (fun x => bind (k x) f)
  end.

Definition sys {X : Type} (c : call X) : Sys X := Call c Ret.

(** A Boost.Filesystem call outside any [try] block: its exception leaves
    the calling function. *)
Definition unguarded {X : Type} (c : call (reply X)) : Sys X :=
  Call c (fun r => match r with
                   | Value x => Ret x
                   | Raised what => Throw (filesystem_error what)
                   end).

Declare Scope sys_scope.
Delimit Scope sys_scope with sys.
Notation "x <- m ;; k" := (bind m (fun x => k))
  (at level 100, m at next level, right associativity) : sys_scope.
Notation "m ;; k" := (bind m (fun _ => k))
  (at level 100, right associativity) : sys_scope.
Local Open Scope sys_scope.

(** ** Property trees (boost::property_tree) *)

Module pt.

(** A [ptree]: a data string and an ordered sequence of keyed children. *)
Inductive ptree : Type :=
| Node (data : string) (children : list (string * ptree)).

Definition data (t : ptree) : string := let 'Node d _ := t in d.
Definition children (t : ptree) : list (string * ptree) := let 'Node _ c := t in c.

(** The fragments of a path with separator ['.'], as [string_path::reduce]
    produces them one after the other; a separator at the very end opens no
    further fragment. *)
Fixpoint fragments (path : string) : list string :=
  match path with
  | "" => []
  | String c rest =>
      if Ascii.eqb c "."%char then "" :: fragments rest
      else match fragments rest with
           | [] => [String c ""]
           | f :: fs => String c f :: fs
           end
  end.

(** [ptree::find]: the first child with the key. *)
Fixpoint find (key : string) (cs : list (string * ptree)) : option ptree :=
  match cs with
  | [] => None
  | (k, t) :: rest => if String.eqb k key then Some t else find key rest
  end.

(** [ptree::walk_path]: follow the fragments, at each level into the first
    child of that name, without backtracking. *)
Fixpoint walk_path (t : ptree) (frags : list string) : option ptree :=
  match frags with
  | [] => Some t
  | f :: rest =>
      match find f (children t) with
      | Some sub => walk_path sub rest
      | None => None
      end
  end.

(** [ptree_bad_path::what()] for a path that leads nowhere. *)
Definition bad_path_what (path : string) : string :=
  "No such node (" ++ path ++ ")".

(** [ptree::get_child(path)]: throws [ptree_bad_path]. *)
Definition get_child (t : ptree) (path : string) : reply ptree :=
  match walk_path t (fragments path) with
  | Some sub => Value sub
  | None => Raised (bad_path_what path)
  end.

(** [ptree::get<std::string>(path)]: the data of the child at the path; the
    translator to [std::string] is the identity and cannot fail. *)
Definition get (t : ptree) (path : string) : reply string :=
  match get_child t path with
  | Value sub => Value (data sub)
  | Raised what => Raised what
  end.

End pt.

(** ** The functions of filesystem.cpp *)

Section Filesystem.

(** [pt::xml_parser::read_xml]: the parse tree of a document, or the text of
    the [xml_parser_error] it throws.  The grammar belongs to the library. *)
Variable read_xml : string -> reply pt.ptree.

(** [boost::filesystem::path(p).parent_path().string()]. *)
Variable parent_path : string -> string.

(** Lines 26-50.  The parameter [force_permissions] occurs nowhere in the
    body. *)
Definition writeTextFile (path content : string) (permissions : Z)
    (force_permissions : bool) : Sys Status :=
  output_fd <- sys (c_open path (Z.lor (Z.lor O_CREAT O_APPEND) O_WRONLY) permissions) ;;
  if (output_fd <=? 0)%Z then Ret (mkStatus 1 "Could not create file")
  else
    rc <- sys (c_chmod path permissions) ;;
    if negb (rc =? 0)%Z then Ret (mkStatus 1 "Failed to change permissions")
    else
      bytes <- sys (c_write output_fd content (string_size content)) ;;
      if negb (to_size_t bytes =? string_size content)%Z then
        sys (c_close output_fd) ;;
        Ret (mkStatus 1 "Failed to write contents")
      else
        sys (c_close output_fd) ;;
        Ret (mkStatus 0 "OK").

(** Lines 114-124. *)
Definition pathExists (path : string) : Sys Status :=
  if (String.length path =? 0)%nat then Ret (mkStatus 1 "-1")
  else
    present <- unguarded (fs_exists path) ;;
    if negb present then Ret (mkStatus 1 "0")
    else Ret (mkStatus 0 "1").

(** Lines 52-88.  The second component of the result is the out-parameter
    [content] when the function returns.  [bool(file_h)] is what the last
    stream operation answered, so the test at [cleanup:] is decided by the
    branch that jumps there: the stream is good only after a complete
    read. *)
Definition readFile (path content : string) : Sys (Status * string) :=
  path_exists <- pathExists path ;;
  if negb (ok path_exists) then Ret (path_exists, content)
  else
    opened <- sys (ifs_open path) ;;
    if opened then
      pos <- sys ifs_seekg_end_tellg ;;
      let len := to_int pos in
      sys ifs_seekg_beg ;;
      (* buffer = new char[len] *)
      if (len <? 0)%Z then Throw bad_array_new_length
      else
        r <- sys (ifs_read len) ;;
        let '(buffer, good) := r in
        if negb good then
          (* goto cleanup_buffer; at cleanup: the stream has failed *)
          Ret (mkStatus 1 "Could not read file", content)
        else
          (* content.assign(buffer, len); at cleanup: file_h.close() *)
          sys ifs_close ;;
          Ret (mkStatus 0 "OK", assign buffer len)
    else
      (* goto cleanup; the stream has failed *)
      Ret (mkStatus 1 "Could not open file for reading", content).

(** Lines 158-163. *)
Definition isDirectory (path : string) : Sys Status :=
  is_dir <- unguarded (fs_is_directory path) ;;
  if is_dir then Ret (mkStatus 0 "OK")
  else Ret (mkStatus 1 "Path is not a directory").

(** Lines 149-156.  The second component is the out-parameter [dirpath]. *)
Definition getDirectory (path dirpath : string) : Sys (Status * string) :=
  s <- isDirectory path ;;
  if negb (ok s) then Ret (mkStatus 0 "OK", parent_path path)
  else Ret (mkStatus 1 "Path is a directory", path).

(** The loop of lines 139-141 over the entries the iterator yields. *)
Fixpoint push_entries (entries results : list string) : list string :=
  match entries with
  | [] => results
  | e :: rest => push_entries rest (push_back results e)
  end.

(** Lines 126-147.  The second component is the out-parameter [results].
    Every [filesystem_error] raised inside the [try] block ends in the
    handler of line 144, which returns its text. *)
Definition listFilesInDirectory (path : string) (results : list string)
    : Sys (Status * list string) :=
  e <- sys (fs_exists path) ;;
  match e with
  | Raised what => Ret (mkStatus 1 what, results)
  | Value false => Ret (mkStatus 1 "Directory not found", results)
  | Value true =>
      d <- sys (fs_is_directory path) ;;
      match d with
      | Raised what => Ret (mkStatus 1 what, results)
      | Value false => Ret (mkStatus 1 "Supplied path is not a directory", results)
      | Value true =>
          it <- sys (fs_directory_iterator path) ;;
          let results' := push_entries (yielded it) results in
          match failure it with
          | Some what => Ret (mkStatus 1 what, results')
          | None => Ret (mkStatus 0 "OK", results')
          end
      end
  end.

Definition Credentials : Type := list (string * string).

(** The loop of lines 189-202 over the children of [tomcat-users]. *)
Fixpoint parse_users (items : list (string * pt.ptree)) (credentials : Credentials)
    : Sys (Status * Credentials) :=
  match items with
  | [] => Ret (mkStatus 0 "OK", credentials)
  | (first, second) :: rest =>
      if String.eqb first "user" then
        match pt.get second "<xmlattr>.username" with
        | Raised what =>
            sys (log_error ("An error occured parsing the tomcat users xml: " ++ what)) ;;
            Ret (mkStatus 1 what, credentials)
        | Value username =>
            match pt.get second "<xmlattr>.password" with
            | Raised what =>
                sys (log_error ("An error occured parsing the tomcat users xml: " ++ what)) ;;
                Ret (mkStatus 1 what, credentials)
            | Value password =>
                parse_users rest (push_back credentials (username, password))
            end
        end
      else parse_users rest credentials
  end.

(** Lines 177-209.  The second component is the out-parameter
    [credentials]. *)
Definition parseTomcatUserConfig (content : string) (credentials : Credentials)
    : Sys (Status * Credentials) :=
  match read_xml content with
  | Raised what => Ret (mkStatus 1 what, credentials)
  | Value tree =>
      match pt.get_child tree "tomcat-users" with
      | Raised what =>
          sys (log_error ("An error occured while trying to access the tomcat-users"
                          ++ " key in the XML content: " ++ what)) ;;
          Ret (mkStatus 1 what, credentials)
      | Value users => parse_users (pt.children users) credentials
      end
  end.

End Filesystem.

(** ** Running a program against a handler *)

(** One executed call together with its answer. *)
Inductive event : Type :=
| Ev {X : Type} (c : call X) (x : X).

(** How a function ends: it returns, or an exception leaves it. *)
Inductive outcome (A : Type) : Type :=
| Returned (a : A)
| Thrown (e : exn).
Arguments Returned {A} a.
Arguments Thrown {A} e.

Section Run.

Context {St : Type}.
Variable handle : forall X : Type, call X -> St -> X * St.

(** The outcome, the final state and the calls made, oldest first. *)
Fixpoint run {A : Type} (m : Sys A) (s : St) : outcome A * St * list event :=
  match m with
  | Ret a => (Returned a, s, [])
  | Throw e => (Thrown e, s, [])
  | Call c k =>
      let xs := handle _ c s in
      let r := run (k (fst xs)) (snd xs) in
      (fst (fst r), snd (fst r), Ev c (fst xs) :: snd r)
  end.

Definition result {A : Type} (m : Sys A) (s : St) : outcome A := fst (fst (run m s)).
Definition final {A : Type} (m : Sys A) (s : St) : St := snd (fst (run m s)).
Definition trace {A : Type} (m : Sys A) (s : St) : list event := snd (run m s).

End Run.

(** Observations on traces. *)

Definition is_close (fd : Z) (e : event) : bool :=
  match e with
  | Ev c _ => match c with
              | c_close fd' => (fd' =? fd)%Z
              | _ => false
              end
  end.

(** How often [close(fd)] was called. *)
Definition closes (fd : Z) (t : list event) : nat :=
  List.length (List.filter (is_close fd) t).

Definition is_open_returning (fd : Z) (e : event) : bool :=
  match e with
  | Ev c x => match c in call X return X -> bool with
              | c_open _ _ _ => fun r => (r =? fd)%Z
              | _ => fun _ => false
              end x
  end.

(** Whether some [open] answered with the descriptor [fd]. *)
Definition acquired (fd : Z) (t : list event) : bool :=
  existsb (is_open_returning fd) t.

Definition is_chmod (path : string) (mode : Z) (e : event) : bool :=
  match e with
  | Ev c _ => match c with
              | c_chmod p m => String.eqb p path && (m =? mode)%Z
              | _ => false
              end
  end.

(** The entries that directory iterators yielded, and the error text of
    the first iterator that broke off. *)
Definition walk_of (e : event) : option dir_walk :=
  match e with
  | Ev c x => match c in call X return X -> option dir_walk with
              | fs_directory_iterator _ => fun it => Some it
              | _ => fun _ => None
              end x
  end.

Fixpoint enumerated (t : list event) : list string :=
  match t with
  | [] => []
  | e :: rest =>
      match walk_of e with
      | Some it => yielded it ++ enumerated rest
      | None => enumerated rest
      end
  end.

Fixpoint iteration_failure (t : list event) : option string :=
  match t with
  | [] => None
  | e :: rest =>
      match walk_of e with
      | Some it => match failure it with
                   | Some what => Some what
                   | None => iteration_failure rest
                   end
      | None => iteration_failure rest
      end
  end.

(** Whether [chmod(path, mode)] was called. *)
Definition chmod_attempted (path : string) (mode : Z) (t : list event) : bool :=
  existsb (is_chmod path mode) t.

(** ** A model of the operating system and of the libraries

    The model keeps one node per path string: different spellings of one
    location are different keys.  What depends on the directories leading to
    a path is summarised by [w_denied]. *)

Module Os.

(** Owner, group and permission bits of a file. *)
Record meta : Type := mkMeta { st_mode : Z; st_uid : Z; st_gid : Z }.

Inductive node : Type :=
| RegFile (m : meta) (data : string)
| Directory (m : meta) (entries : list string).

Definition meta_of (n : node) : meta :=
  match n with RegFile m _ => m | Directory m _ => m end.

Definition with_mode (n : node) (mode : Z) : node :=
  let m := meta_of n in
  let m' := mkMeta mode (st_uid m) (st_gid m) in
  match n with RegFile _ d => RegFile m' d | Directory _ es => Directory m' es end.

(** An open file description: the path it was opened on, its flags and its
    offset. *)
Record fdesc : Type := mkFd { fd_path : string; fd_flags : Z; fd_offset : nat }.

(** The stream object [file_h]: the path it was constructed on, whether a
    file is open, whether [failbit] is set, and the read position. *)
Record ifstream : Type :=
  mkStream { is_path : string; is_open : bool; is_fail : bool; is_pos : nat }.

Record World : Type := mkWorld {
  w_euid : Z;                          (* effective user of the process *)
  w_egid : Z;                          (* effective group of the process *)
  w_umask : Z;                         (* file mode creation mask *)
  w_nodes : gmap string node;          (* the file each path names *)
  w_denied : gset string;              (* paths behind a directory the process may not search *)
  w_fds : gmap Z fdesc;                (* descriptor table of the process *)
  w_space : Z;                         (* bytes the device can still take *)
  w_dirfault : gmap string (nat * string);
                                       (* directories whose reading breaks off
                                          after n entries, and the OS error text *)
  w_dirend : Z;                        (* offset a seek to the end of a directory reports *)
  w_stream : ifstream;                 (* file_h *)
  w_log : list string                  (* lines logged at level ERROR *)
}.

Definition set_nodes (w : World) (ns : gmap string node) : World :=
  mkWorld (w_euid w) (w_egid w) (w_umask w) ns (w_denied w) (w_fds w) (w_space w)
          (w_dirfault w) (w_dirend w) (w_stream w) (w_log w).

Definition set_fds (w : World) (fds : gmap Z fdesc) : World :=
  mkWorld (w_euid w) (w_egid w) (w_umask w) (w_nodes w) (w_denied w) fds (w_space w)
          (w_dirfault w) (w_dirend w) (w_stream w) (w_log w).

Definition set_space (w : World) (sp : Z) : World :=
  mkWorld (w_euid w) (w_egid w) (w_umask w) (w_nodes w) (w_denied w) (w_fds w) sp
          (w_dirfault w) (w_dirend w) (w_stream w) (w_log w).

Definition set_stream (w : World) (st : ifstream) : World :=
  mkWorld (w_euid w) (w_egid w) (w_umask w) (w_nodes w) (w_denied w) (w_fds w) (w_space w)
          (w_dirfault w) (w_dirend w) st (w_log w).

Definition set_log (w : World) (l : list string) : World :=
  mkWorld (w_euid w) (w_egid w) (w_umask w) (w_nodes w) (w_denied w) (w_fds w) (w_space w)
          (w_dirfault w) (w_dirend w) (w_stream w) l.

(** *** Path resolution and permissions *)

Inductive resolution : Type :=
| Denied                 (* EACCES on the way to the path *)
| Absent                 (* ENOENT or ENOTDIR *)
| Present (n : node).

Definition resolve (w : World) (path : string) : resolution :=
  if String.eqb path "" then Absent
  else if bool_decide (path ∈ w_denied w) then Denied
  else match w_nodes w !! path with
       | Some n => Present n
       | None => Absent
       end.

(** Permission classes: bit 2 reads, bit 1 writes, bit 0 searches or
    executes; the owner's bits are six places up, the group's three. *)
Definition R_BIT : Z := 2.
Definition W_BIT : Z := 1.
Definition X_BIT : Z := 0.

Definition permitted (w : World) (m : meta) (bit : Z) : bool :=
  (w_euid w =? 0)%Z
  || Z.testbit (st_mode m)
       (if (st_uid m =? w_euid w)%Z then bit + 6
        else if (st_gid m =? w_egid w)%Z then bit + 3
        else bit)%Z.

(** The directory that holds a path and the name in it: the split at the
    last ['/']. *)
Fixpoint split_last (s : string) : option (string * string) :=
  match s with
  | "" => None
  | String c r =>
      match split_last r with
      | Some (d, b) => Some (String c d, b)
      | None => if Ascii.eqb c "/"%char then Some ("", r) else None
      end
  end.

Definition container (path : string) : string * string :=
  match split_last path with
  | None => (".", path)
  | Some ("", b) => ("/", b)
  | Some (d, b) => (d, b)
  end.

(** *** open, chmod, write, close *)

Definition accmode (flags : Z) : Z := Z.land flags 3.
Definition has_flag (flag flags : Z) : bool := negb (Z.land flags flag =? 0)%Z.

(** The model covers the access mode, [O_CREAT] and [O_APPEND]; a call with
    any other flag is refused. *)
Definition flags_supported (flags : Z) : bool :=
  (Z.land flags (Z.lnot (Z.lor 3 (Z.lor O_CREAT O_APPEND))) =? 0)%Z
  && (0 <=? flags)%Z && negb (accmode flags =? 3)%Z.

(** The lowest descriptor that is not in use. *)
Fixpoint lowest_free (fds : gmap Z fdesc) (fuel : nat) (fd : Z) : Z :=
  match fuel with
  | O => fd
  | S fuel' => match fds !! fd with
               | None => fd
               | Some _ => lowest_free fds fuel' (fd + 1)%Z
               end
  end.

Definition install_fd (w : World) (path : string) (flags : Z) : Z * World :=
  let fd := lowest_free (w_fds w) (size (w_fds w)) 0 in
  (fd, set_fds w (<[fd := mkFd path flags 0]> (w_fds w))).

(** Creation of a regular file: the holding directory must exist and allow
    the process to write and search; the new name is entered last. *)
Definition os_creat (w : World) (path : string) (mode : Z) : option World :=
  let '(dir, base) := container path in
  if String.eqb base "" then None
  else match resolve w dir with
       | Present (Directory dm entries) =>
           if permitted w dm W_BIT && permitted w dm X_BIT then
             let m := mkMeta (Z.land (Z.land mode 4095) (Z.lnot (w_umask w)))
                             (w_euid w) (w_egid w) in
             Some (set_nodes w (<[path := RegFile m ""]>
                                  (<[dir := Directory dm (entries ++ [base])]> (w_nodes w))))
           else None
       | _ => None
       end.

Definition os_open (w : World) (path : string) (flags mode : Z) : Z * World :=
  if negb (flags_supported flags) then (-1, w)%Z
  else match resolve w path with
       | Denied => (-1, w)%Z
       | Present (Directory m _) =>
           if (accmode flags =? 0)%Z && negb (has_flag O_CREAT flags)
              && permitted w m R_BIT
           then install_fd w path flags
           else (-1, w)%Z                                   (* EISDIR, EACCES *)
       | Present (RegFile m _) =>
           if implb (negb (accmode flags =? O_WRONLY)%Z) (permitted w m R_BIT)
              && implb (negb (accmode flags =? 0)%Z) (permitted w m W_BIT)
           then install_fd w path flags
           else (-1, w)%Z                                   (* EACCES *)
       | Absent =>
           if has_flag O_CREAT flags then
             match os_creat w path mode with
             | Some w' => install_fd w' path flags
             | None => (-1, w)%Z
             end
           else (-1, w)%Z                                   (* ENOENT *)
       end.

(** Mode bits of [<sys/stat.h>]: set-user-ID, set-group-ID, execute for
    the group. *)
Definition S_ISUID : Z := 2048.
Definition S_ISGID : Z := 1024.
Definition S_IXGRP_BIT : Z := 3.

(** The mode that [chmod] stores: the twelve mode bits of the argument;
    for a process that is neither the superuser nor in the group of the
    file, without the set-group-ID bit.  The group of the process is its
    effective group; supplementary groups are not in the model. *)
Definition chmod_mode (w : World) (m : meta) (mode : Z) : Z :=
  let bits := Z.land mode 4095 in
  if (w_euid w =? 0)%Z || (st_gid m =? w_egid w)%Z then bits
  else Z.land bits (Z.lnot S_ISGID).

(** Only the owner and the superuser change a mode. *)
Definition os_chmod (w : World) (path : string) (mode : Z) : Z * World :=
  match resolve w path with
  | Present n =>
      if (w_euid w =? 0)%Z || (st_uid (meta_of n) =? w_euid w)%Z
      then (0%Z, set_nodes w (<[path := with_mode n (chmod_mode w (meta_of n) mode)]>
                                (w_nodes w)))
      else (-1, w)%Z                                        (* EPERM *)
  | _ => (-1, w)%Z
  end.

(** The mode of a file after a process other than the superuser has
    written to it (Linux): the set-user-ID bit is cleared, and so is the
    set-group-ID bit when the group may execute the file. *)
Definition write_mode (w : World) (mode : Z) : Z :=
  if (w_euid w =? 0)%Z then mode
  else
    let m1 := Z.land mode (Z.lnot S_ISUID) in
    if Z.testbit mode S_IXGRP_BIT then Z.land m1 (Z.lnot S_ISGID) else m1.

(** The kernel does this before it transfers the bytes, whenever the
    request is for at least one byte. *)
Definition write_meta (w : World) (m : meta) (count : Z) : meta :=
  if (0 <? count)%Z then mkMeta (write_mode w (st_mode m)) (st_uid m) (st_gid m)
  else m.

(** The bytes of [data] with [bytes] written at offset [off]; a gap is
    filled with NUL. *)
Fixpoint nuls (n : nat) : string :=
  match n with O => "" | S n' => String "000"%char (nuls n') end.

Definition write_at (data : string) (off : nat) (bytes : string) : string :=
  str_take off data ++ nuls (off - String.length data)
  ++ bytes ++ str_drop (off + String.length bytes) data.

(** [write]: with [O_APPEND] the bytes go to the end of the file.  When the
    device has less room than asked for, the write is short; with no room
    at all it fails.  A request for at least one byte takes the
    set-user-ID and set-group-ID bits from the file ([write_meta]). *)
Definition os_write (w : World) (fd : Z) (buf : string) (count : Z) : Z * World :=
  match w_fds w !! fd with
  | None => (-1, w)%Z                                       (* EBADF *)
  | Some d =>
      if (accmode (fd_flags d) =? 0)%Z || (count <? 0)%Z then (-1, w)%Z
      else match w_nodes w !! fd_path d with
           | Some (RegFile m data) =>
               let room := Z.max 0 (w_space w) in
               let m' := write_meta w m count in
               if (0 <? count)%Z && (room =? 0)%Z
               then (-1, set_nodes w (<[fd_path d := RegFile m' data]> (w_nodes w)))%Z
                                                                         (* ENOSPC *)
               else
                 let n := Z.min (Z.min count (string_size buf)) room in
                 let bytes := str_take (Z.to_nat n) buf in
                 let off := if has_flag O_APPEND (fd_flags d)
                            then String.length data else fd_offset d in
                 let nodes' := <[fd_path d := RegFile m' (write_at data off bytes)]> (w_nodes w) in
                 let fds' := <[fd := mkFd (fd_path d) (fd_flags d) (off + Z.to_nat n)]> (w_fds w) in
                 (n, set_space (set_fds (set_nodes w nodes') fds') (w_space w - n)%Z)
           | _ => (-1, w)%Z
           end
  end.

Definition os_close (w : World) (fd : Z) : Z * World :=
  match w_fds w !! fd with
  | Some _ => (0%Z, set_fds w (delete fd (w_fds w)))
  | None => (-1, w)%Z                                       (* EBADF *)
  end.

(** *** Boost.Filesystem *)

Definition dquote : string := String "034"%char "".

(** [filesystem_error::what()]: the throwing function, the text of the OS
    error and the quoted path. *)
Definition fs_what (fn err path : string) : string :=
  "boost::filesystem::" ++ fn ++ ": " ++ err ++ ": " ++ dquote ++ path ++ dquote.

(** [exists] and [is_directory] go through [status], which throws on every
    error except a missing path. *)
Definition os_exists (w : World) (path : string) : reply bool :=
  match resolve w path with
  | Denied => Raised (fs_what "status" "Permission denied" path)
  | Absent => Value false
  | Present _ => Value true
  end.

Definition os_is_directory (w : World) (path : string) : reply bool :=
  match resolve w path with
  | Denied => Raised (fs_what "status" "Permission denied" path)
  | Absent => Value false
  | Present (RegFile _ _) => Value false
  | Present (Directory _ _) => Value true
  end.

Fixpoint ends_with_sep (s : string) : bool :=
  match s with
  | "" => false
  | String c "" => Ascii.eqb c "/"%char
  | String _ r => ends_with_sep r
  end.

(** [path::operator/]: the path of an entry is the directory path, a
    separator unless one is there, and the name. *)
Definition path_append (dir name : string) : string :=
  if String.eqb dir "" then name
  else if ends_with_sep dir then dir ++ name
  else dir ++ "/" ++ name.

(** The entries of a directory as the iterator reports them. *)
Definition entry_paths (path : string) (entries : list string) : list string :=
  List.map (path_append path) entries.

Definition os_directory_iterator (w : World) (path : string) : dir_walk :=
  let broken err :=
    mkWalk [] (Some (fs_what "directory_iterator::construct" err path)) in
  match resolve w path with
  | Denied => broken "Permission denied"
  | Absent => broken "No such file or directory"
  | Present (RegFile _ _) => broken "Not a directory"
  | Present (Directory m entries) =>
      if permitted w m R_BIT then
        match w_dirfault w !! path with
        | Some (n, err) =>
            mkWalk (take n (entry_paths path entries))
                   (Some (fs_what "directory_iterator::operator++" err path))
        | None => mkWalk (entry_paths path entries) None
        end
      else broken "Permission denied"
  end.

(** *** std::ifstream *)

Definition os_ifs_open (w : World) (path : string) : bool * World :=
  match resolve w path with
  | Present n =>
      if permitted w (meta_of n) R_BIT
      then (true, set_stream w (mkStream path true false 0))
      else (false, set_stream w (mkStream path false true 0))
  | _ => (false, set_stream w (mkStream path false true 0))
  end.

Definition usable (st : ifstream) : bool := is_open st && negb (is_fail st).

Definition fail_stream (w : World) : World :=
  let st := w_stream w in
  set_stream w (mkStream (is_path st) (is_open st) true (is_pos st)).

(** [seekg(0, end)] followed by [tellg()]: the size of a regular file; -1
    on a failed stream. *)
Definition os_ifs_seekg_end_tellg (w : World) : Z * World :=
  let st := w_stream w in
  if negb (usable st) then (-1, fail_stream w)%Z
  else match w_nodes w !! is_path st with
       | Some (RegFile _ data) =>
           (string_size data,
            set_stream w (mkStream (is_path st) true false (String.length data)))
       | Some (Directory _ _) => (w_dirend w, w)
       | None => (-1, fail_stream w)%Z
       end.

Definition os_ifs_seekg_beg (w : World) : unit * World :=
  let st := w_stream w in
  if negb (usable st) then (tt, fail_stream w)
  else (tt, set_stream w (mkStream (is_path st) true false 0)).

(** [read(buffer, n)]: the characters stored in the buffer and the state of
    the stream; fewer than [n] characters left set [failbit]. *)
Definition os_ifs_read (w : World) (n : Z) : (string * bool) * World :=
  let st := w_stream w in
  if negb (usable st) || (n <? 0)%Z then (("", false), fail_stream w)
  else match w_nodes w !! is_path st with
       | Some (RegFile _ data) =>
           let avail := str_drop (is_pos st) data in
           if (n <=? string_size avail)%Z then
             ((str_take (Z.to_nat n) avail, true),
              set_stream w (mkStream (is_path st) true false (is_pos st + Z.to_nat n)))
           else
             ((avail, false),
              set_stream w (mkStream (is_path st) true true (String.length data)))
       | _ =>
           if (n =? 0)%Z then (("", true), w) else (("", false), fail_stream w)
       end.

Definition os_ifs_close (w : World) : unit * World :=
  let st := w_stream w in
  (tt, set_stream w (mkStream (is_path st) false (negb (is_open st) || is_fail st) 0)).

(** *** The handler *)

Definition handle (X : Type) (c : call X) (w : World) : X * World :=
  match c in call X return X * World with
  | c_open path flags mode => os_open w path flags mode
  | c_chmod path mode => os_chmod w path mode
  | c_write fd buf count => os_write w fd buf count
  | c_close fd => os_close w fd
  | fs_exists path => (os_exists w path, w)
  | fs_is_directory path => (os_is_directory w path, w)
  | fs_directory_iterator path => (os_directory_iterator w path, w)
  | ifs_open path => os_ifs_open w path
  | ifs_seekg_end_tellg => os_ifs_seekg_end_tellg w
  | ifs_seekg_beg => os_ifs_seekg_beg w
  | ifs_read n => os_ifs_read w n
  | ifs_close => os_ifs_close w
  | log_error msg => (tt, set_log w (w_log w ++ [msg]))
  end.

(** The content of the regular file at a path. *)
Definition file_data (w : World) (path : string) : option string :=
  match w_nodes w !! path with
  | Some (RegFile _ data) => Some data
  | _ => None
  end.

End Os.

(** Running a program in a world. *)
Definition exec {A : Type} (m : Sys A) (w : Os.World) : outcome A * Os.World * list event :=
  run Os.handle m w.
Definition exec_result {A : Type} (m : Sys A) (w : Os.World) : outcome A :=
  result Os.handle m w.
Definition exec_final {A : Type} (m : Sys A) (w : Os.World) : Os.World :=
  final Os.handle m w.
Definition exec_trace {A : Type} (m : Sys A) (w : Os.World) : list event :=
  trace Os.handle m w.

(** ** Statements and example data used by the theorems *)

(** The flags [writeTextFile] opens with. *)
Definition write_flags : Z := Z.lor (Z.lor O_CREAT O_APPEND) O_WRONLY.

(** A [std::string] holds fewer than 2^63 characters ([max_size]). *)
Definition std_string (s : string) : Prop := (string_size s < 2 ^ 63)%Z.

(** The process is the same in both worlds: same user, same group, same
    unreachable paths. *)
Definition same_process (w w' : Os.World) : Prop :=
  Os.w_euid w' = Os.w_euid w /\ Os.w_egid w' = Os.w_egid w
  /\ Os.w_denied w' = Os.w_denied w.

(** The path is not empty and the way to it is open. *)
Definition reachable (w : Os.World) (path : string) : Prop :=
  String.eqb path "" = false /\ bool_decide (path ∈ Os.w_denied w) = false.

(** What the file at a path holds; nothing when there is no file. *)
Definition old_data (w : Os.World) (path : string) : string :=
  match Os.file_data w path with Some d => d | None => "" end.

(** A [<user>] element with both attributes, and the credential it gives. *)
Definition user_credential (t : pt.ptree) : option (string * string) :=
  match pt.get t "<xmlattr>.username", pt.get t "<xmlattr>.password" with
  | Value u, Value p => Some (u, p)
  | _, _ => None
  end.

(** The credentials of the [user] elements among some children. *)
Fixpoint credentials_of (items : list (string * pt.ptree)) : Credentials :=
  match items with
  | [] => []
  | (k, t) :: rest =>
      if String.eqb k "user" then
        match user_credential t with
        | Some c => c :: credentials_of rest
        | None => credentials_of rest
        end
      else credentials_of rest
  end.

(** Every [user] element among the children has both attributes. *)
Definition users_well_formed (items : list (string * pt.ptree)) : Prop :=
  Forall (fun kt => fst kt = "user" -> user_credential (snd kt) <> None) items.

(** A process of user 1000 with the three standard descriptors open.
    [/tmp] is world-writable; [/tmp/shared.log] belongs to user 1001 and is
    writable by everyone (mode 0666); [/secret] belongs to the superuser
    and is closed to everyone else (mode 0700); reading [/var/spool] breaks
    off with an I/O error after the first entry. *)
Definition example_world : Os.World :=
  Os.mkWorld 1000 1000 18
    (list_to_map
       [("/tmp", Os.Directory (Os.mkMeta 1023 0 0) ["shared.log"]);
        ("/tmp/shared.log", Os.RegFile (Os.mkMeta 438 1001 1001) "old");
        ("/secret", Os.Directory (Os.mkMeta 448 0 0) ["key"]);
        ("/var/spool", Os.Directory (Os.mkMeta 493 0 0) ["cron"; "mail"])])
    ∅
    (list_to_map
       [(0%Z, Os.mkFd "/dev/tty" 2 0); (1%Z, Os.mkFd "/dev/tty" 2 0);
        (2%Z, Os.mkFd "/dev/tty" 2 0)])
    1000000
    {[ "/var/spool" := (1%nat, "Input/output error") ]}
    (2 ^ 63 - 1)
    (Os.mkStream "" false false 0)
    [].

(** The same world with room for a single byte on the device. *)
Definition full_disk_world : Os.World := Os.set_space example_world 1.

(** A document whose first user is complete and whose second user has no
    password. *)
Definition two_users_doc : string :=
  "<tomcat-users><user username='alice' password='secret1'/><user username='bob'/></tomcat-users>".

Definition attr (k v : string) : string * pt.ptree := (k, pt.Node v []).

Definition two_users_tree : pt.ptree :=
  pt.Node ""
    [("tomcat-users",
      pt.Node ""
        [("user", pt.Node "" [("<xmlattr>", pt.Node "" [attr "username" "alice";
                                                         attr "password" "secret1"])]);
         ("user", pt.Node "" [("<xmlattr>", pt.Node "" [attr "username" "bob"])])])].


(** A stand-in for [parent_path] on plain absolute paths. *)
Definition dirname (path : string) : string := fst (Os.container path).


(** The statement that a successful write to a fresh path can be read
    back. *)
Definition round_trip (w : Os.World) (path content : string) (mode : Z) : Prop :=
  Os.os_exists w path = Value false ->
  exec_result (writeTextFile path content mode true) w = Returned (mkStatus 0 "OK") ->
  exists st,
    exec_result (readFile path "") (exec_final (writeTextFile path content mode true) w)
    = Returned (st, content) /\ ok st = true.


(** ** The remaining functions of filesystem.cpp *)

Section Disk.

Variable read_xml : string -> reply pt.ptree.

(** Lines 165-175.  The local [content] starts empty. *)
Definition parseTomcatUserConfigFromDisk (path : string) (credentials : Credentials)
    : Sys (Status * Credentials) :=
  r <- readFile path "" ;;
  let '(s, content) := r in
  if ok s then parseTomcatUserConfig read_xml content credentials
  else Ret (s, credentials).

End Disk.

(** [isWritable] and [isReadable] are the only functions that call
    [access]; their programs run over the calls above extended by it. *)

(** Access modes of [<unistd.h>]. *)
Definition R_OK : Z := 4.
Definition W_OK : Z := 2.

Inductive xcall : Type -> Type :=
| base {X : Type} (c : call X) : xcall X
| c_access (path : string) (amode : Z) : xcall Z.

Inductive XSys (A : Type) : Type :=
| XRet (a : A)
| XThrow (e : exn)
| XCall {X : Type} (c : xcall X) (k : X -> XSys A).
Arguments XRet {A} a.
Arguments XThrow {A} e.
Arguments XCall {A X} c k.

Fixpoint xbind {A B : Type} (m : XSys A) (f : A -> XSys B) : XSys B :=
  match m with
  | XRet a => f a
  | XThrow e => XThrow e
  | XCall c k => XCall c (fun x => xbind (k x) f)
  end.

(** A program over the calls above, as a program over the extended calls. *)
Fixpoint lift {A : Type} (m : Sys A) : XSys A :=
  match m with
  | Ret a => XRet a
  | Throw e => XThrow e
  | Call c k => XCall (base c) (fun x => lift (k x))
  end.

(** Lines 90-100. *)
Definition isWritable (path : string) : XSys Status :=
  xbind (lift (pathExists path)) (fun path_exists =>
    if negb (ok path_exists) then XRet path_exists
    else XCall (c_access path W_OK) (fun rc =>
           if (rc =? 0)%Z then XRet (mkStatus 0 "OK")
           else XRet (mkStatus 1 "Path is not writable."))).

(** Lines 102-112. *)
Definition isReadable (path : string) : XSys Status :=
  xbind (lift (pathExists path)) (fun path_exists =>
    if negb (ok path_exists) then XRet path_exists
    else XCall (c_access path R_OK) (fun rc =>
           if (rc =? 0)%Z then XRet (mkStatus 0 "OK")
           else XRet (mkStatus 1 "Path is not readable."))).

Inductive xevent : Type :=
| XEv {X : Type} (c : xcall X) (x : X).

Section XRun.

Context {St : Type}.
Variable handle : forall X : Type, xcall X -> St -> X * St.

Fixpoint xrun {A : Type} (m : XSys A) (s : St) : outcome A * St * list xevent :=
  match m with
  | XRet a => (Returned a, s, [])
  | XThrow e => (Thrown e, s, [])
  | XCall c k =>
      let xs := handle _ c s in
      let r := xrun (k (fst xs)) (snd xs) in
      (fst (fst r), snd (fst r), XEv c (fst xs) :: snd r)
  end.

Definition xresult {A : Type} (m : XSys A) (s : St) : outcome A := fst (fst (xrun m s)).
Definition xtrace {A : Type} (m : XSys A) (s : St) : list xevent := snd (xrun m s).

End XRun.

Definition is_access (e : xevent) : bool :=
  match e with
  | XEv c _ => match c with
               | c_access _ _ => true
               | _ => false
               end
  end.

(** How often [access] was called. *)
Definition accesses (t : list xevent) : nat := List.length (List.filter is_access t).

(** [access] in a world, for a process whose real and effective ids are
    the same. *)
Definition os_access (w : Os.World) (path : string) (amode : Z) : Z :=
  match Os.resolve w path with
  | Os.Present n =>
      if implb (Z.testbit amode 2) (Os.permitted w (Os.meta_of n) Os.R_BIT)
         && implb (Z.testbit amode 1) (Os.permitted w (Os.meta_of n) Os.W_BIT)
         && implb (Z.testbit amode 0) (Os.permitted w (Os.meta_of n) Os.X_BIT)
      then 0%Z else (-1)%Z
  | _ => (-1)%Z
  end.

Definition xhandle (X : Type) (c : xcall X) (w : Os.World) : X * Os.World :=
  match c in xcall X return X * Os.World with
  | base c' => Os.handle _ c' w
  | c_access path amode => (os_access w path amode, w)
  end.

(** The calls that the source makes on POSIX directly.  In [Os.World] no
    other call changes a node. *)
Definition mutating {X : Type} (c : call X) : bool :=
  match c with
  | c_open _ _ _ | c_chmod _ _ | c_write _ _ _ | c_close _ => true
  | _ => false
  end.

(** A program that makes none of those calls, whatever the answers. *)
Fixpoint quiet {A : Type} (m : Sys A) : Prop :=
  match m with
  | Ret _ => True
  | Throw _ => True
  | Call c k => mutating c = false /\ forall x, quiet (k x)
  end.

(** The offset that a seek to the end of a file reports. *)
Definition end_offset (w : Os.World) (n : Os.node) : Z :=
  match n with
  | Os.RegFile _ data => string_size data
  | Os.Directory _ _ => Os.w_dirend w
  end.

Definition is_ifs_open (e : event) : bool :=
  match e with
  | Ev c _ => match c with
              | ifs_open _ => true
              | _ => false
              end
  end.

(** Whether a stream was constructed. *)
Definition stream_opened (t : list event) : bool := existsb is_ifs_open t.

(** Further example data. *)

(** The example process with no descriptor open, standard input included. *)
Definition no_stdin_world : Os.World := Os.set_fds example_world ∅.

(** The example world after the process has written its own file
    [/tmp/notes] with mode 0644. *)
Definition notes_world : Os.World :=
  exec_final (writeTextFile "/tmp/notes" "hello " 420 true) example_world.

(** The example world in which the process may not search [/root], so
    that the status of [/root/key] cannot be read. *)
Definition guarded_world : Os.World :=
  Os.mkWorld 1000 1000 18 (Os.w_nodes example_world) {[ "/root/key" ]}
             (Os.w_fds example_world) 1000000 ∅ (2 ^ 63 - 1)
             (Os.mkStream "" false false 0) [].




(** A document with two complete users and an element that is no user. *)
Definition complete_doc : string :=
  "<tomcat-users><user username='alice' password='secret1'/><role rolename='admin'/><user username='bob' password='secret2'/></tomcat-users>".

Definition complete_users : pt.ptree :=
  pt.Node ""
    [("user", pt.Node "" [("<xmlattr>", pt.Node "" [attr "username" "alice";
                                                     attr "password" "secret1"])]);
     ("role", pt.Node "" [("<xmlattr>", pt.Node "" [attr "rolename" "admin"])]);
     ("user", pt.Node "" [("<xmlattr>", pt.Node "" [attr "username" "bob";
                                                     attr "password" "secret2"])])].

Definition complete_tree : pt.ptree := pt.Node "" [("tomcat-users", complete_users)].

(** [read_xml] on the documents of the examples; a document with another
    root, and a parse error on everything else. *)
Definition read_examples (content : string) : reply pt.ptree :=
  if String.eqb content complete_doc then Value complete_tree
  else if String.eqb content two_users_doc then Value two_users_tree
  else if String.eqb content "<server/>" then Value (pt.Node "" [("server", pt.Node "" [])])
  else Raised "<unspecified file>(1): expected <".

(** * Properties *)

(** ** Strings and machine integers *)

Lemma str_take_all (s : string) : str_take (String.length s) s = s.
Proof. induction s as [|c s IH]; simpl; [reflexivity | now rewrite IH]. Qed.

Lemma str_drop_all (s : string) (n : nat) :
  (String.length s <= n)%nat -> str_drop n s = "".
Proof.
  revert n. induction s as [|c s IH]; intros [|n] H; simpl in *; try reflexivity; try lia.
  apply IH. lia.
Qed.

Lemma append_cons (c : ascii) (s t : string) :
  String c s +:+ t = String c (s +:+ t).
Proof. reflexivity. Qed.

Lemma append_empty_r (s : string) : s +:+ "" = s.
Proof.
  induction s as [|c s IH]; [reflexivity|].
  now rewrite append_cons, IH.
Qed.

Lemma write_at_end (data bytes : string) :
  Os.write_at data (String.length data) bytes = data +:+ bytes.
Proof.
  unfold Os.write_at. rewrite str_take_all, Nat.sub_diag. simpl.
  rewrite str_drop_all by lia. now rewrite append_empty_r.
Qed.

Lemma to_int_small (z : Z) : (0 <= z < 2 ^ 31)%Z -> to_int z = z.
Proof.
  intros H. unfold to_int.
  rewrite Z.mod_small by lia. lia.
Qed.

Lemma push_entries_app (entries results : list string) :
  push_entries entries results = results ++ entries.
Proof.
  revert results. induction entries as [|e es IH]; intros results; simpl.
  - now rewrite app_nil_r.
  - rewrite IH. unfold push_back. now rewrite <- app_assoc.
Qed.

(** ** Running programs *)

Section RunFacts.

Context {St : Type}.
Variable handle : forall X : Type, call X -> St -> X * St.

Lemma result_call {A X : Type} (c : call X) (k : X -> Sys A) (s : St) :
  result handle (Call c k) s
  = result handle (k (fst (handle _ c s))) (snd (handle _ c s)).
Proof. reflexivity. Qed.

Lemma final_call {A X : Type} (c : call X) (k : X -> Sys A) (s : St) :
  final handle (Call c k) s
  = final handle (k (fst (handle _ c s))) (snd (handle _ c s)).
Proof. reflexivity. Qed.

Lemma trace_call {A X : Type} (c : call X) (k : X -> Sys A) (s : St) :
  trace handle (Call c k) s
  = Ev c (fst (handle _ c s))
    :: trace handle (k (fst (handle _ c s))) (snd (handle _ c s)).
Proof. reflexivity. Qed.

End RunFacts.

(** ** readFile *)

(** C9.  Whatever the operating system and the stream answer, when
    [readFile] returns a failure status the out-parameter [content] holds
    what it held before the call: it is assigned only on the path that
    returns [Status(0, "OK")]. *)
Theorem readFile_failure_keeps_content :
  forall (St : Type) (handle : forall X : Type, call X -> St -> X * St) (s : St)
         (path content : string) (st : Status) (content' : string),
    result handle (readFile path content) s = Returned (st, content') ->
    getCode st <> 0%Z ->
    content' = content.
Proof.
  intros St handle s path content st content' Hres Hcode.
  unfold readFile, pathExists in Hres.
  destruct (String.length path =? 0)%nat.
  - simpl in Hres. now inversion Hres.
  - cbn [bind unguarded sys] in Hres. rewrite result_call in Hres.
    destruct (handle _ (fs_exists path) s) as [[present|what] s1];
      cbn [fst snd bind] in Hres; [|discriminate].
    destruct present; cbn [negb bind ok getCode Z.eqb] in Hres;
      [|now inversion Hres].
    rewrite result_call in Hres.
    destruct (handle _ (ifs_open path) s1) as [opened s2]; cbn [fst snd] in Hres.
    destruct opened; cbn [bind] in Hres; [|now inversion Hres].
    rewrite result_call in Hres.
    destruct (handle _ ifs_seekg_end_tellg s2) as [pos s3]; cbn [fst snd bind] in Hres.
    rewrite result_call in Hres.
    destruct (handle _ ifs_seekg_beg s3) as [u s4]; cbn [fst snd bind] in Hres.
    destruct (to_int pos <? 0)%Z; [discriminate|].
    cbn [bind] in Hres. rewrite result_call in Hres.
    destruct (handle _ (ifs_read (to_int pos)) s4) as [[buffer good] s5];
      cbn [fst snd bind] in Hres.
    destruct good; cbn [negb bind] in Hres; [|now inversion Hres].
    rewrite result_call in Hres. cbn [bind] in Hres.
    inversion Hres; subst. now cbn in Hcode.
Qed.

Lemma readFile_failure_keeps_content_witness :
  result Os.handle (readFile "/nope" "keep") example_world
  = Returned (mkStatus 1 "0", "keep")
  /\ getCode (mkStatus 1 "0") <> 0%Z
  /\ "keep" = "keep".
Proof.
  assert (H1 : result Os.handle (readFile "/nope" "keep") example_world
               = Returned (mkStatus 1 "0", "keep")) by (vm_compute; reflexivity).
  assert (H2 : getCode (mkStatus 1 "0") <> 0%Z) by (simpl; lia).
  split; [exact H1 | split; [exact H2 |]].
  exact (readFile_failure_keeps_content _ _ _ _ _ _ _ H1 H2).
Defined.

(** ** listFilesInDirectory *)

(** C10.  Whatever the filesystem answers, [listFilesInDirectory] returns,
    and [results] after the call is [results] before the call followed by
    the entries the iterator yielded: nothing is cleared or overwritten.
    When the iterator broke off with a [filesystem_error], the status is
    the failure carrying that error's text, and the entries yielded before
    the error are still appended. *)
Theorem listFilesInDirectory_only_appends :
  forall (St : Type) (handle : forall X : Type, call X -> St -> X * St) (s : St)
         (path : string) (results : list string),
    let t := trace handle (listFilesInDirectory path results) s in
    exists st : Status,
      result handle (listFilesInDirectory path results) s
      = Returned (st, results ++ enumerated t)
      /\ (forall what, iteration_failure t = Some what -> st = mkStatus 1 what).
Proof.
  intros St handle s path results t. subst t.
  unfold listFilesInDirectory. cbn [bind sys].
  rewrite result_call, trace_call.
  destruct (handle _ (fs_exists path) s) as [[present|what] s1]; cbn [fst snd].
  2:{ eexists. split; [cbn; now rewrite app_nil_r | cbn; discriminate]. }
  destruct present; cbn [bind].
  2:{ eexists. split; [cbn; now rewrite app_nil_r | cbn; discriminate]. }
  rewrite result_call, trace_call.
  destruct (handle _ (fs_is_directory path) s1) as [[is_dir|what] s2]; cbn [fst snd].
  2:{ eexists. split; [cbn; now rewrite app_nil_r | cbn; discriminate]. }
  destruct is_dir; cbn [bind].
  2:{ eexists. split; [cbn; now rewrite app_nil_r | cbn; discriminate]. }
  rewrite result_call, trace_call.
  destruct (handle _ (fs_directory_iterator path) s2) as [[ys [what|]] s3];
    cbn [fst snd yielded failure bind].
  - exists (mkStatus 1 what). split.
    + cbn. now rewrite push_entries_app, app_nil_r.
    + cbn. intros what' H. now inversion H.
  - exists (mkStatus 0 "OK"). split.
    + cbn. now rewrite push_entries_app, app_nil_r.
    + cbn. discriminate.
Qed.

(** In the example world the reading of [/var/spool] breaks off after one
    entry: the call fails and [results] has grown by that entry. *)
Example listFilesInDirectory_partial :
  exec_result (listFilesInDirectory "/var/spool" ["kept"]) example_world
  = Returned (mkStatus 1 (Os.fs_what "directory_iterator::operator++"
                                     "Input/output error" "/var/spool"),
              ["kept"; "/var/spool/cron"]).
Proof. vm_compute. reflexivity. Qed.

(** ** writeTextFile *)

(** C4.  Two runs of [writeTextFile] that differ only in
    [force_permissions] give the same outcome, the same final state and the
    same calls, whatever the operating system answers.  With either value
    of the flag the first call is [open]; whenever [open] answers a
    positive descriptor the next call is [chmod(path, permissions)]; when
    it does not, no further call is made. *)
Theorem writeTextFile_ignores_force_permissions :
  forall (St : Type) (handle : forall X : Type, call X -> St -> X * St) (s : St)
         (path content : string) (permissions : Z),
    run handle (writeTextFile path content permissions true) s
    = run handle (writeTextFile path content permissions false) s
    /\ forall force : bool,
         let opened := handle _ (c_open path write_flags permissions) s in
         let changed := handle _ (c_chmod path permissions) (snd opened) in
         let t := trace handle (writeTextFile path content permissions force) s in
         ((0 < fst opened)%Z ->
          chmod_attempted path permissions t = true
          /\ exists rest,
               t = Ev (c_open path write_flags permissions) (fst opened)
                   :: Ev (c_chmod path permissions) (fst changed) :: rest)
         /\ ((fst opened <= 0)%Z ->
             t = [Ev (c_open path write_flags permissions) (fst opened)]).
Proof.
  intros St handle s path content permissions. split; [reflexivity|].
  intros force opened changed t. subst t.
  unfold writeTextFile. cbn [bind sys]. rewrite trace_call.
  fold write_flags. fold opened. split.
  - intros Hfd. destruct (fst opened <=? 0)%Z eqn:Hle; [apply Z.leb_le in Hle; lia|].
    cbn [bind]. rewrite trace_call. fold changed. split.
    + unfold chmod_attempted. cbn [existsb is_chmod].
      now rewrite String.eqb_refl, Z.eqb_refl, orb_true_r.
    + eexists. reflexivity.
  - intros Hfd. apply Z.leb_le in Hfd. now rewrite Hfd.
Qed.

Lemma writeTextFile_ignores_force_permissions_witness :
  chmod_attempted "/tmp/fresh" 384
    (trace Os.handle (writeTextFile "/tmp/fresh" "x" 384 false) example_world) = true
  /\ exists rest,
       trace Os.handle (writeTextFile "/tmp/fresh" "x" 384 false) example_world
       = Ev (c_open "/tmp/fresh" write_flags 384)
            (fst (Os.handle _ (c_open "/tmp/fresh" write_flags 384) example_world))
         :: Ev (c_chmod "/tmp/fresh" 384)
               (fst (Os.handle _ (c_chmod "/tmp/fresh" 384)
                       (snd (Os.handle _ (c_open "/tmp/fresh" write_flags 384)
                               example_world))))
         :: rest.
Proof.
  apply (writeTextFile_ignores_force_permissions Os.World Os.handle example_world
           "/tmp/fresh" "x" 384).
  vm_compute. reflexivity.
Defined.

(** ** pathExists *)




(** ** getDirectory *)




(** The descriptor is closed once when [chmod] succeeded and never when it
    failed, whatever the operating system answers. *)
Lemma writeTextFile_closes :
  forall (St : Type) (handle : forall X : Type, call X -> St -> X * St) (s : St)
         (path content : string) (permissions : Z) (force : bool),
    let opened := handle _ (c_open path write_flags permissions) s in
    let changed := handle _ (c_chmod path permissions) (snd opened) in
    (0 < fst opened)%Z ->
    closes (fst opened) (trace handle (writeTextFile path content permissions force) s)
    = if (fst changed =? 0)%Z then 1%nat else 0%nat.
Proof.
  intros St handle s path content permissions force opened changed Hfd.
  unfold writeTextFile. cbn [bind sys]. rewrite trace_call.
  fold write_flags. fold opened.
  destruct (fst opened <=? 0)%Z eqn:Hle; [lia|].
  cbn [bind]. rewrite trace_call. fold changed.
  unfold closes. cbn [List.filter is_close].
  destruct (fst changed =? 0)%Z; cbn [negb bind]; [|reflexivity].
  rewrite trace_call.
  destruct (negb (to_size_t _ =? string_size content)%Z);
    cbn [bind List.filter is_close]; rewrite trace_call;
    cbn [bind trace run snd List.filter is_close];
    now rewrite Z.eqb_refl.
Qed.

(** C3, at a failing input.  The process of user 1000 writes to
    [/tmp/shared.log], which user 1001 owns and everyone may write:
    [open] gives descriptor 3, [chmod] is refused, and the function returns
    without a call of [close]: descriptor 3 stays in the table. *)
Theorem writeTextFile_chmod_failure_leaks_descriptor :
  let call_ := writeTextFile "/tmp/shared.log" "x" 384 true in
  exec_result call_ example_world
  = Returned (mkStatus 1 "Failed to change permissions")
  /\ acquired 3 (exec_trace call_ example_world) = true
  /\ closes 3 (exec_trace call_ example_world) = 0%nat
  /\ Os.w_fds (exec_final call_ example_world) !! 3%Z
     = Some (Os.mkFd "/tmp/shared.log" write_flags 0).
Proof. vm_compute. repeat split; reflexivity. Qed.

(** On the two sibling paths the descriptor is closed once: after a short
    write and after a complete one. *)
Example writeTextFile_short_write_closes :
  let call_ := writeTextFile "/tmp/fresh" "xyz" 384 true in
  exec_result call_ full_disk_world = Returned (mkStatus 1 "Failed to write contents")
  /\ acquired 3 (exec_trace call_ full_disk_world) = true
  /\ closes 3 (exec_trace call_ full_disk_world) = 1%nat
  /\ Os.w_fds (exec_final call_ full_disk_world) !! 3%Z = None
  /\ Os.file_data (exec_final call_ full_disk_world) "/tmp/fresh" = Some "x".
Proof. vm_compute. repeat split; reflexivity. Qed.

Example writeTextFile_success_closes :
  let call_ := writeTextFile "/tmp/fresh" "x" 384 true in
  exec_result call_ example_world = Returned (mkStatus 0 "OK")
  /\ acquired 3 (exec_trace call_ example_world) = true
  /\ closes 3 (exec_trace call_ example_world) = 1%nat
  /\ Os.w_fds (exec_final call_ example_world) !! 3%Z = None.
Proof. vm_compute. repeat split; reflexivity. Qed.

(** ** parseTomcatUserConfig *)


Section ParseUsers.

Context {St : Type}.
Variable handle : forall X : Type, call X -> St -> X * St.

(** Well-formed users in front of the loop's input are pushed in order. *)
Lemma parse_users_app (before rest : list (string * pt.ptree))
    (credentials : Credentials) (s : St) :
  users_well_formed before ->
  result handle (parse_users (before ++ rest) credentials) s
  = result handle (parse_users rest (credentials ++ credentials_of before)) s.
Proof.
  revert credentials.
  induction before as [|[k t] before IH]; intros credentials Hwf.
  - cbn. now rewrite app_nil_r.
  - inversion Hwf as [|kt l Hhead Htail]; subst.
    cbn [app parse_users credentials_of].
    destruct (String.eqb k "user") eqn:Hk.
    + apply String.eqb_eq in Hk. cbn [fst snd] in Hhead.
      specialize (Hhead Hk). unfold user_credential in *.
      destruct (pt.get t "<xmlattr>.username") as [u|]; [|congruence].
      destruct (pt.get t "<xmlattr>.password") as [p|]; [|congruence].
      rewrite IH by assumption. unfold push_back.
      now rewrite <- app_assoc.
    + now apply IH.
Qed.


End ParseUsers.




(** ** listFilesInDirectory in a world *)







(** ** The calls of writeTextFile in a world *)

Lemma write_flags_facts :
  Os.flags_supported write_flags = true
  /\ Os.accmode write_flags = 1%Z
  /\ Os.has_flag O_CREAT write_flags = true
  /\ Os.has_flag O_APPEND write_flags = true.
Proof. repeat split; reflexivity. Qed.

Lemma install_fd_spec (w w1 : Os.World) (path : string) (flags fd : Z) :
  Os.install_fd w path flags = (fd, w1) ->
  same_process w w1 /\ Os.w_nodes w1 = Os.w_nodes w
  /\ Os.w_fds w1 !! fd = Some (Os.mkFd path flags 0).
Proof.
  unfold Os.install_fd. intros H. inversion H; subst. clear H.
  repeat split. cbn. apply lookup_insert_eq.
Qed.

Lemma os_open_write (w w1 : Os.World) (path : string) (mode fd : Z) :
  Os.os_open w path write_flags mode = (fd, w1) ->
  (0 < fd)%Z ->
  same_process w w1 /\ reachable w path
  /\ Os.w_fds w1 !! fd = Some (Os.mkFd path write_flags 0)
  /\ exists m, Os.w_nodes w1 !! path = Some (Os.RegFile m (old_data w path))
               /\ (Os.w_nodes w !! path = None -> Os.st_uid m = Os.w_euid w).
Proof.
  intros Hopen Hfd. unfold Os.os_open in Hopen.
  destruct write_flags_facts as (Hsup & Hacc & Hcreat & Happend).
  rewrite Hsup, Hacc, Hcreat in Hopen. cbn [negb] in Hopen.
  unfold Os.resolve in Hopen. unfold reachable, old_data, Os.file_data.
  destruct (String.eqb path "") eqn:Hempty.
  - apply String.eqb_eq in Hempty. subst path.
    cbn in Hopen. inversion Hopen; subst. lia.
  - destruct (bool_decide (path ∈ Os.w_denied w)) eqn:Hden;
      [inversion Hopen; subst; lia|].
    destruct (Os.w_nodes w !! path) as [[m data|m entries]|] eqn:Hnode.
    + change (1 =? O_WRONLY)%Z with true in Hopen.
      change (1 =? 0)%Z with false in Hopen. cbn [negb implb andb] in Hopen.
      destruct (Os.permitted w m Os.W_BIT); [|inversion Hopen; subst; lia].
      apply install_fd_spec in Hopen. destruct Hopen as (Hproc & Hnodes & Hfds).
      repeat split; try apply Hproc; try assumption.
      exists m. rewrite Hnodes, Hnode. split; [reflexivity | discriminate].
    + change (1 =? 0)%Z with false in Hopen. cbn [andb] in Hopen.
      inversion Hopen; subst; lia.
    + destruct (Os.os_creat w path mode) as [w'|] eqn:Hcreate;
        [|inversion Hopen; subst; lia].
      apply install_fd_spec in Hopen. destruct Hopen as (Hproc & Hnodes & Hfds).
      unfold Os.os_creat in Hcreate.
      destruct (Os.container path) as [dir base].
      destruct (String.eqb base ""); [discriminate|].
      destruct (Os.resolve w dir) as [| |[dm dd|dm entries]]; try discriminate.
      destruct (Os.permitted w dm Os.W_BIT && Os.permitted w dm Os.X_BIT);
        [|discriminate].
      inversion Hcreate; subst w'. clear Hcreate.
      destruct Hproc as (He & Hg & Hd). cbn in He, Hg, Hd, Hnodes.
      repeat split; try assumption.
      eexists. rewrite Hnodes. split; [apply lookup_insert_eq | reflexivity].
Qed.

(** The nine permission bits pass through [chmod] and [write]. *)
Lemma chmod_mode_permissions (w : Os.World) (m : Os.meta) (mode : Z) :
  Z.land (Os.chmod_mode w m mode) 511 = Z.land mode 511.
Proof.
  unfold Os.chmod_mode.
  destruct ((Os.w_euid w =? 0)%Z || (Os.st_gid m =? Os.w_egid w)%Z);
    rewrite <- !Z.land_assoc; reflexivity.
Qed.

Lemma write_mode_permissions (w : Os.World) (mode : Z) :
  Z.land (Os.write_mode w mode) 511 = Z.land mode 511.
Proof.
  unfold Os.write_mode.
  destruct (Os.w_euid w =? 0)%Z; [reflexivity|].
  destruct (Z.testbit mode Os.S_IXGRP_BIT); rewrite <- !Z.land_assoc; reflexivity.
Qed.

Lemma write_meta_permissions (w : Os.World) (m : Os.meta) (count : Z) :
  Z.land (Os.st_mode (Os.write_meta w m count)) 511 = Z.land (Os.st_mode m) 511
  /\ Os.st_uid (Os.write_meta w m count) = Os.st_uid m
  /\ Os.st_gid (Os.write_meta w m count) = Os.st_gid m.
Proof.
  unfold Os.write_meta. destruct (0 <? count)%Z; cbn; repeat split.
  apply write_mode_permissions.
Qed.

Lemma owner_read_bit (a b : Z) :
  Z.land a 511 = Z.land b 511 -> Z.testbit a 8 = Z.testbit b 8.
Proof.
  intros H.
  assert (H8 : Z.testbit (Z.land a 511) 8 = Z.testbit (Z.land b 511) 8) by now rewrite H.
  rewrite !Z.land_spec in H8. change (Z.testbit 511 8) with true in H8.
  now rewrite !andb_true_r in H8.
Qed.

Lemma os_chmod_ok (w w2 : Os.World) (path : string) (mode : Z) (m : Os.meta)
    (data : string) :
  Os.os_chmod w path mode = (0%Z, w2) ->
  reachable w path ->
  Os.w_nodes w !! path = Some (Os.RegFile m data) ->
  same_process w w2 /\ Os.w_fds w2 = Os.w_fds w
  /\ Os.w_nodes w2 !! path
     = Some (Os.RegFile (Os.mkMeta (Os.chmod_mode w m mode) (Os.st_uid m) (Os.st_gid m))
                        data).
Proof.
  intros Hch [Hne Hden] Hnode. unfold Os.os_chmod, Os.resolve in Hch.
  rewrite Hne, Hden, Hnode in Hch. cbn [Os.meta_of] in Hch.
  destruct ((Os.w_euid w =? 0)%Z || (Os.st_uid m =? Os.w_euid w)%Z);
    [|discriminate].
  inversion Hch; subst. clear Hch.
  repeat split. cbn. apply lookup_insert_eq.
Qed.

Lemma os_write_all (w w3 : Os.World) (fd n : Z) (path content : string)
    (m : Os.meta) (data : string) :
  Os.os_write w fd content (string_size content) = (n, w3) ->
  to_size_t n = string_size content ->
  std_string content ->
  Os.w_fds w !! fd = Some (Os.mkFd path write_flags 0) ->
  Os.w_nodes w !! path = Some (Os.RegFile m data) ->
  same_process w w3
  /\ Os.w_nodes w3 !! path
     = Some (Os.RegFile (Os.write_meta w m (string_size content)) (data +:+ content)).
Proof.
  intros Hwr Hn Hstd Hfd Hnode. unfold Os.os_write in Hwr.
  rewrite Hfd in Hwr. cbn [Os.fd_flags Os.fd_path Os.fd_offset] in Hwr.
  destruct write_flags_facts as (_ & Hacc & _ & Happend).
  rewrite Hacc, Happend, Hnode in Hwr.
  change (1 =? 0)%Z with false in Hwr. cbn [orb] in Hwr.
  unfold std_string, string_size, to_size_t in *.
  destruct (Z.of_nat (String.length content) <? 0)%Z eqn:Hneg; [lia|].
  destruct ((0 <? Z.of_nat (String.length content))%Z
            && (Z.max 0 (Os.w_space w) =? 0)%Z) eqn:Hfull.
  - inversion Hwr; subst. clear Hwr.
    change ((-1) mod 2 ^ 64)%Z with (2 ^ 64 - 1)%Z in Hn. lia.
  - inversion Hwr; subst. clear Hwr.
    set (k := Z.min (Z.min (Z.of_nat (String.length content))
                           (Z.of_nat (String.length content)))
                    (Z.max 0 (Os.w_space w))) in *.
    assert (Hk : (0 <= k <= Z.of_nat (String.length content))%Z) by lia.
    rewrite Z.mod_small in Hn by lia.
    rewrite Hn, Nat2Z.id, str_take_all, write_at_end.
    repeat split. cbn. apply lookup_insert_eq.
Qed.

Lemma os_close_spec (w w4 : Os.World) (fd r : Z) :
  Os.os_close w fd = (r, w4) ->
  same_process w w4 /\ Os.w_nodes w4 = Os.w_nodes w.
Proof.
  unfold Os.os_close. destruct (Os.w_fds w !! fd); intros H; inversion H; subst;
    repeat split.
Qed.

Lemma same_process_trans (w1 w2 w3 : Os.World) :
  same_process w1 w2 -> same_process w2 w3 -> same_process w1 w3.
Proof. unfold same_process. intros (? & ? & ?) (? & ? & ?). repeat split; congruence. Qed.

Lemma reachable_same_process (w w' : Os.World) (path : string) :
  same_process w w' -> reachable w path -> reachable w' path.
Proof. unfold same_process, reachable. intros (_ & _ & ->). tauto. Qed.

(** A successful [writeTextFile] appends: afterwards the file holds what it
    held before (nothing, if it was created by the call) followed by
    [content]; its nine permission bits are the requested ones. *)
Lemma writeTextFile_appends (w : Os.World) (path content : string) (mode : Z)
    (force : bool) :
  std_string content ->
  exec_result (writeTextFile path content mode force) w = Returned (mkStatus 0 "OK") ->
  let w' := exec_final (writeTextFile path content mode force) w in
  same_process w w' /\ reachable w path
  /\ exists m,
       Os.w_nodes w' !! path = Some (Os.RegFile m (old_data w path +:+ content))
       /\ Z.land (Os.st_mode m) 511 = Z.land mode 511
       /\ (Os.w_nodes w !! path = None -> Os.st_uid m = Os.w_euid w).
Proof.
  intros Hstd Hres w'. subst w'. revert Hres.
  unfold exec_result, exec_final, writeTextFile. cbn [bind sys].
  rewrite result_call, final_call. cbn [Os.handle]. fold write_flags.
  destruct (Os.os_open w path write_flags mode) as [fd w1] eqn:Hopen.
  cbn [fst snd].
  destruct (fd <=? 0)%Z eqn:Hfd; [discriminate|]. apply Z.leb_gt in Hfd.
  cbn [bind]. rewrite result_call, final_call. cbn [Os.handle].
  destruct (Os.os_chmod w1 path mode) as [rc w2] eqn:Hchmod. cbn [fst snd].
  destruct (rc =? 0)%Z eqn:Hrc; cbn [negb]; [|discriminate].
  apply Z.eqb_eq in Hrc. subst rc.
  cbn [bind]. rewrite result_call, final_call. cbn [Os.handle].
  destruct (Os.os_write w2 fd content (string_size content)) as [n w3] eqn:Hwrite.
  cbn [fst snd].
  destruct (to_size_t n =? string_size content)%Z eqn:Hn; cbn [negb bind];
    rewrite result_call, final_call; cbn [Os.handle];
    destruct (Os.os_close w3 fd) as [r w4] eqn:Hclose; cbn [fst snd bind];
    [|discriminate].
  intros _. apply Z.eqb_eq in Hn.
  change (final Os.handle (Ret (mkStatus 0 "OK")) w4) with w4.
  destruct (os_open_write _ _ _ _ _ Hopen Hfd) as (P1 & Hreach & Hfds & m & Hnode & Huid).
  pose proof (reachable_same_process _ _ _ P1 Hreach) as Hreach1.
  destruct (os_chmod_ok _ _ _ _ _ _ Hchmod Hreach1 Hnode) as (P2 & Hfds2 & Hnode2).
  rewrite <- Hfds2 in Hfds.
  destruct (os_write_all _ _ _ _ _ _ _ _ Hwrite Hn Hstd Hfds Hnode2) as (P3 & Hnode3).
  destruct (os_close_spec _ _ _ _ Hclose) as (P4 & Hnodes4).
  split; [|split; [assumption|]].
  - eauto using same_process_trans.
  - eexists. rewrite Hnodes4. split; [exact Hnode3|].
    destruct (write_meta_permissions w2
                (Os.mkMeta (Os.chmod_mode w1 m mode) (Os.st_uid m) (Os.st_gid m))
                (string_size content)) as (Hbits & Hu & _).
    split.
    + rewrite Hbits. cbn [Os.st_mode]. apply chmod_mode_permissions.
    + rewrite Hu. exact Huid.
Qed.

(** The stream operations of [readFile] on an open, good stream over a
    regular file. *)
Lemma ifs_seek_end_regular (w : Os.World) (path : string) (m : Os.meta)
    (data : string) (pos : nat) :
  Os.w_stream w = Os.mkStream path true false pos ->
  Os.w_nodes w !! path = Some (Os.RegFile m data) ->
  Os.os_ifs_seekg_end_tellg w
  = (string_size data, Os.set_stream w (Os.mkStream path true false (String.length data))).
Proof.
  intros Hst Hnode. unfold Os.os_ifs_seekg_end_tellg, Os.usable.
  rewrite Hst. cbn [Os.is_open Os.is_fail Os.is_path negb andb].
  now rewrite Hnode.
Qed.

Lemma ifs_seek_beg_good (w : Os.World) (path : string) (pos : nat) :
  Os.w_stream w = Os.mkStream path true false pos ->
  Os.os_ifs_seekg_beg w = (tt, Os.set_stream w (Os.mkStream path true false 0)).
Proof.
  intros Hst. unfold Os.os_ifs_seekg_beg, Os.usable.
  rewrite Hst. reflexivity.
Qed.

Lemma ifs_read_whole (w : Os.World) (path : string) (m : Os.meta) (data : string) :
  Os.w_stream w = Os.mkStream path true false 0 ->
  Os.w_nodes w !! path = Some (Os.RegFile m data) ->
  fst (Os.os_ifs_read w (string_size data)) = (data, true).
Proof.
  intros Hst Hnode. unfold Os.os_ifs_read, Os.usable.
  rewrite Hst. cbn [Os.is_open Os.is_fail Os.is_path Os.is_pos negb andb orb].
  unfold string_size.
  destruct (Z.of_nat (String.length data) <? 0)%Z eqn:Hneg;
    [apply Z.ltb_lt in Hneg; lia|].
  rewrite Hnode. cbn [str_drop].
  rewrite Z.leb_refl. cbn [fst]. now rewrite Nat2Z.id, str_take_all.
Qed.

(** [readFile] on a readable regular file of fewer than 2^31 bytes returns
    its bytes. *)
Lemma readFile_reads (w : Os.World) (path content : string) (m : Os.meta)
    (data : string) :
  reachable w path ->
  Os.w_nodes w !! path = Some (Os.RegFile m data) ->
  Os.permitted w m Os.R_BIT = true ->
  (string_size data < 2 ^ 31)%Z ->
  exec_result (readFile path content) w = Returned (mkStatus 0 "OK", data).
Proof.
  intros [Hne Hden] Hnode Hperm Hsize.
  unfold exec_result, readFile, pathExists.
  destruct path as [|c p]; [discriminate|].
  cbn [String.length Nat.eqb bind unguarded sys]. rewrite result_call.
  cbn [Os.handle fst snd]. unfold Os.os_exists, Os.resolve at 1.
  rewrite Hne, Hden, Hnode. cbn [bind negb ok getCode Z.eqb].
  rewrite result_call. cbn [Os.handle]. unfold Os.os_ifs_open, Os.resolve.
  rewrite Hne, Hden, Hnode. cbn [Os.meta_of]. rewrite Hperm. cbn [fst snd bind].
  set (w1 := Os.set_stream w _).
  rewrite result_call. cbn [Os.handle].
  rewrite (ifs_seek_end_regular w1 (String c p) m data 0) by (reflexivity || exact Hnode).
  cbn [fst snd bind]. set (w2 := Os.set_stream w1 _).
  rewrite result_call. cbn [Os.handle].
  rewrite (ifs_seek_beg_good w2 (String c p) (String.length data)) by reflexivity.
  cbn [fst snd bind]. set (w3 := Os.set_stream w2 _).
  assert (Hlen : to_int (string_size data) = string_size data).
  { apply to_int_small. unfold string_size in *. lia. }
  rewrite Hlen.
  destruct (string_size data <? 0)%Z eqn:Hneg;
    [apply Z.ltb_lt in Hneg; unfold string_size in Hneg; lia|].
  rewrite result_call. cbn [Os.handle].
  rewrite (ifs_read_whole w3 (String c p) m data) by (reflexivity || exact Hnode).
  cbn [negb bind]. rewrite result_call. cbn [bind].
  unfold result. cbn [run fst snd]. unfold assign, string_size.
  now rewrite Nat2Z.id, str_take_all.
Qed.

Lemma fresh_no_node (w : Os.World) (path : string) :
  Os.os_exists w path = Value false ->
  reachable w path ->
  Os.w_nodes w !! path = None.
Proof.
  unfold Os.os_exists, Os.resolve. intros H [Hne Hden].
  rewrite Hne, Hden in H.
  destruct (Os.w_nodes w !! path); [discriminate | reflexivity].
Qed.

Lemma old_data_fresh (w : Os.World) (path : string) :
  Os.w_nodes w !! path = None -> old_data w path = "".
Proof. unfold old_data, Os.file_data. now intros ->. Qed.

Lemma old_data_node (w : Os.World) (path : string) (m : Os.meta) (data : string) :
  Os.w_nodes w !! path = Some (Os.RegFile m data) -> old_data w path = data.
Proof. unfold old_data, Os.file_data. now intros ->. Qed.

(** C7.  Two successful calls of [writeTextFile] in a row on a path that
    did not exist, with contents [c1] and then [c2], leave the file holding
    [c1] followed by [c2], whatever the modes and flags of the two calls.
    The contents are [std::string]s, so their sizes fit [size_t]. *)
Theorem writeTextFile_twice_concatenates :
  forall (w : Os.World) (path c1 c2 : string) (mode1 mode2 : Z)
         (force1 force2 : bool),
    std_string c1 -> std_string c2 ->
    Os.os_exists w path = Value false ->
    exec_result (writeTextFile path c1 mode1 force1) w
    = Returned (mkStatus 0 "OK") ->
    exec_result (writeTextFile path c2 mode2 force2)
                (exec_final (writeTextFile path c1 mode1 force1) w)
    = Returned (mkStatus 0 "OK") ->
    Os.file_data
      (exec_final (writeTextFile path c2 mode2 force2)
                  (exec_final (writeTextFile path c1 mode1 force1) w))
      path
    = Some (c1 +:+ c2).
Proof.
  intros w path c1 c2 mode1 mode2 force1 force2 Hstd1 Hstd2 Hfresh Hfirst Hsecond.
  destruct (writeTextFile_appends w path c1 mode1 force1 Hstd1 Hfirst)
    as (_ & Hreach & m1 & Hnode1 & _ & _).
  rewrite (old_data_fresh w path) in Hnode1
    by (now apply fresh_no_node).
  destruct (writeTextFile_appends _ path c2 mode2 force2 Hstd2 Hsecond)
    as (_ & _ & m2 & Hnode2 & _ & _).
  rewrite (old_data_node _ _ _ _ Hnode1) in Hnode2.
  unfold Os.file_data. now rewrite Hnode2.
Qed.

Lemma writeTextFile_twice_concatenates_witness :
  Os.file_data
    (exec_final (writeTextFile "/tmp/notes" "world" 420 false)
                (exec_final (writeTextFile "/tmp/notes" "hello " 384 true) example_world))
    "/tmp/notes"
  = Some ("hello " +:+ "world").
Proof.
  apply (writeTextFile_twice_concatenates example_world "/tmp/notes"
           "hello " "world" 384 420 true false).
  - unfold std_string. vm_compute. reflexivity.
  - unfold std_string. vm_compute. reflexivity.
  - vm_compute. reflexivity.
  - vm_compute. reflexivity.
  - vm_compute. reflexivity.
Defined.

(** C6, as the code has it.  A successful [writeTextFile] on a path that
    did not exist, followed by [readFile] on the same path, succeeds and
    yields the content written, provided the requested mode lets the
    process read its own file (the owner's read bit, 0400, is set, or the
    process is the superuser) and the content is shorter than 2^31 bytes,
    so that its length fits the [int] that [readFile] computes with. *)
Theorem writeTextFile_readFile_round_trip :
  forall (w : Os.World) (path content : string) (mode : Z) (force : bool)
         (before : string),
    (string_size content < 2 ^ 31)%Z ->
    Os.w_euid w = 0%Z \/ Z.testbit mode 8 = true ->
    Os.os_exists w path = Value false ->
    exec_result (writeTextFile path content mode force) w
    = Returned (mkStatus 0 "OK") ->
    exec_result (readFile path before)
                (exec_final (writeTextFile path content mode force) w)
    = Returned (mkStatus 0 "OK", content).
Proof.
  intros w path content mode force before Hsize Hread Hfresh Hwrite.
  assert (Hstd : std_string content) by (unfold std_string; lia).
  destruct (writeTextFile_appends w path content mode force Hstd Hwrite)
    as (Hproc & Hreach & m & Hnode & Hmode & Huid).
  pose proof (fresh_no_node w path Hfresh Hreach) as Hnone.
  rewrite (old_data_fresh w path Hnone) in Hnode.
  change ("" +:+ content) with content in Hnode.
  apply readFile_reads with m; try assumption.
  - now apply reachable_same_process with w.
  - unfold Os.permitted. destruct Hproc as (He & _ & _).
    rewrite He, (Huid Hnone), Z.eqb_refl.
    destruct Hread as [-> | Hbit]; [reflexivity|].
    change (Os.R_BIT + 6)%Z with 8%Z.
    rewrite (owner_read_bit _ _ Hmode), Hbit. apply orb_true_r.
Qed.

Lemma writeTextFile_readFile_round_trip_witness :
  exec_result (readFile "/tmp/notes" "before")
              (exec_final (writeTextFile "/tmp/notes" "hello" 420 true) example_world)
  = Returned (mkStatus 0 "OK", "hello").
Proof.
  apply (writeTextFile_readFile_round_trip example_world "/tmp/notes" "hello"
           420 true "before").
  - vm_compute. reflexivity.
  - right. vm_compute. reflexivity.
  - vm_compute. reflexivity.
  - vm_compute. reflexivity.
Defined.

(** C6, as stated, fails: with mode 0200 the write to the fresh path
    [/tmp/f] succeeds and the file holds the content, but the process may
    not read it, and [readFile] fails with [content] untouched. *)
Lemma writeTextFile_unreadable_mode :
  exec_result (writeTextFile "/tmp/f" "hi" 128 true) example_world
  = Returned (mkStatus 0 "OK")
  /\ exec_result (readFile "/tmp/f" "")
                 (exec_final (writeTextFile "/tmp/f" "hi" 128 true) example_world)
     = Returned (mkStatus 1 "Could not open file for reading", "")
  /\ ~ round_trip example_world "/tmp/f" "hi" 128.
Proof.
  split; [vm_compute; reflexivity|].
  split; [vm_compute; reflexivity|].
  intros H. destruct H as [st [Hr _]]; [vm_compute; reflexivity .. |].
  vm_compute in Hr. discriminate Hr.
Qed.



Lemma listFilesInDirectory_only_appends_witness :
  exists st : Status,
    result Os.handle (listFilesInDirectory "/var/spool" ["kept"]) example_world
    = Returned (st, ["kept"] ++ ["/var/spool/cron"])
    /\ st = mkStatus 1 (Os.fs_what "directory_iterator::operator++"
                                   "Input/output error" "/var/spool").
Proof.
  destruct (listFilesInDirectory_only_appends Os.World Os.handle example_world
              "/var/spool" ["kept"]) as (st & Hr & Hfail).
  exists st. split; [exact Hr|].
  apply Hfail. vm_compute. reflexivity.
Defined.

(** * Further properties of the file *)

(** ** Sequencing *)

Section BindFacts.

Context {St : Type}.
Variable handle : forall X : Type, call X -> St -> X * St.

Lemma result_bind {A B : Type} (m : Sys A) (f : A -> Sys B) (s : St) :
  result handle (bind m f) s
  = match result handle m s with
    | Returned a => result handle (f a) (final handle m s)
    | Thrown e => Thrown e
    end.
Proof.
  revert s. induction m as [a|e|X c k IH]; intros s; try reflexivity.
  cbn [bind]. rewrite !result_call, final_call. apply IH.
Qed.

Lemma final_bind {A B : Type} (m : Sys A) (f : A -> Sys B) (s : St) :
  final handle (bind m f) s
  = match result handle m s with
    | Returned a => final handle (f a) (final handle m s)
    | Thrown e => final handle m s
    end.
Proof.
  revert s. induction m as [a|e|X c k IH]; intros s; try reflexivity.
  cbn [bind]. rewrite !final_call, result_call. apply IH.
Qed.

Lemma trace_bind {A B : Type} (m : Sys A) (f : A -> Sys B) (s : St) :
  trace handle (bind m f) s
  = trace handle m s
    ++ match result handle m s with
       | Returned a => trace handle (f a) (final handle m s)
       | Thrown e => []
       end.
Proof.
  revert s. induction m as [a|e|X c k IH]; intros s; try reflexivity.
  cbn [bind]. rewrite !trace_call, result_call, final_call, IH. reflexivity.
Qed.

End BindFacts.

Lemma quiet_bind {A B : Type} (m : Sys A) (f : A -> Sys B) :
  quiet m -> (forall a, quiet (f a)) -> quiet (bind m f).
Proof.
  induction m as [a|e|X c k IH]; intros Hm Hf; cbn [bind quiet] in *.
  - apply Hf.
  - exact I.
  - destruct Hm as [Hc Hk]. split; [exact Hc | intros x; apply IH; auto].
Qed.

(** ** Functions that only query *)

Lemma quiet_pathExists (path : string) : quiet (pathExists path).
Proof.
  unfold pathExists. destruct (String.length path =? 0)%nat; [exact I|].
  cbn. split; [reflexivity|]. intros [[|]|what]; exact I.
Qed.

Lemma quiet_isDirectory (path : string) : quiet (isDirectory path).
Proof.
  unfold isDirectory. cbn. split; [reflexivity|]. intros [[|]|what]; exact I.
Qed.

Lemma quiet_getDirectory (parent_path : string -> string) (path dirpath : string) :
  quiet (getDirectory parent_path path dirpath).
Proof.
  unfold getDirectory. apply quiet_bind; [apply quiet_isDirectory|].
  intros st. destruct (negb (ok st)); exact I.
Qed.

Lemma quiet_listFilesInDirectory (path : string) (results : list string) :
  quiet (listFilesInDirectory path results).
Proof.
  unfold listFilesInDirectory. cbn. split; [reflexivity|].
  intros [[|]|what]; cbn; try exact I.
  split; [reflexivity|]. intros [[|]|what']; cbn; try exact I.
  split; [reflexivity|]. intros [ys [what'|]]; exact I.
Qed.

Lemma quiet_readFile (path content : string) : quiet (readFile path content).
Proof.
  unfold readFile. apply quiet_bind; [apply quiet_pathExists|].
  intros st. destruct (negb (ok st)); [exact I|].
  cbn. split; [reflexivity|]. intros [|]; cbn; [|exact I].
  split; [reflexivity|]. intros pos. split; [reflexivity|]. intros _.
  destruct (to_int pos <? 0)%Z; cbn; [exact I|].
  split; [reflexivity|]. intros [buffer [|]]; cbn; [|exact I].
  split; [reflexivity|]. intros _. exact I.
Qed.

(** Outside [open], [chmod], [write] and [close] no call changes a node
    of the world. *)
Lemma handle_keeps_nodes {X : Type} (c : call X) (w : Os.World) :
  mutating c = false ->
  Os.w_nodes (snd (Os.handle X c w)) = Os.w_nodes w.
Proof.
  destruct c; cbn [mutating Os.handle snd]; intros H; try discriminate H;
    try reflexivity.
  - unfold Os.os_ifs_open. destruct (Os.resolve w path) as [| |n]; try reflexivity.
    now destruct (Os.permitted w (Os.meta_of n) Os.R_BIT).
  - unfold Os.os_ifs_seekg_end_tellg.
    destruct (negb (Os.usable (Os.w_stream w))); [reflexivity|].
    now destruct (Os.w_nodes w !! Os.is_path (Os.w_stream w)) as [[m d|m es]|].
  - unfold Os.os_ifs_seekg_beg.
    now destruct (negb (Os.usable (Os.w_stream w))).
  - unfold Os.os_ifs_read.
    destruct (negb (Os.usable (Os.w_stream w)) || (n <? 0)%Z); [reflexivity|].
    destruct (Os.w_nodes w !! Os.is_path (Os.w_stream w)) as [[m d|m es]|].
    + now destruct (n <=? string_size (str_drop (Os.is_pos (Os.w_stream w)) d))%Z.
    + now destruct (n =? 0)%Z.
    + now destruct (n =? 0)%Z.
Qed.

Lemma quiet_keeps_nodes {A : Type} (m : Sys A) (w : Os.World) :
  quiet m -> Os.w_nodes (exec_final m w) = Os.w_nodes w.
Proof.
  revert w. induction m as [a|e|X c k IH]; intros w Hq; try reflexivity.
  destruct Hq as [Hc Hk]. unfold exec_final. rewrite final_call.
  fold (exec_final (k (fst (Os.handle X c w))) (snd (Os.handle X c w))).
  rewrite IH by apply Hk. now apply handle_keeps_nodes.
Qed.

(** X1.  [pathExists], [isDirectory], [getDirectory],
    [listFilesInDirectory] and [readFile] leave every file and every
    directory as it was: content, mode, owner, group and directory entries
    are the same after the call, whether the function returns or an
    exception leaves it. *)
Theorem queries_change_no_file :
  forall (w : Os.World) (parent_path : string -> string)
         (path dirpath content : string) (results : list string),
    Os.w_nodes (exec_final (pathExists path) w) = Os.w_nodes w
    /\ Os.w_nodes (exec_final (isDirectory path) w) = Os.w_nodes w
    /\ Os.w_nodes (exec_final (getDirectory parent_path path dirpath) w) = Os.w_nodes w
    /\ Os.w_nodes (exec_final (listFilesInDirectory path results) w) = Os.w_nodes w
    /\ Os.w_nodes (exec_final (readFile path content) w) = Os.w_nodes w.
Proof.
  intros. repeat split; apply quiet_keeps_nodes.
  - apply quiet_pathExists.
  - apply quiet_isDirectory.
  - apply quiet_getDirectory.
  - apply quiet_listFilesInDirectory.
  - apply quiet_readFile.
Qed.

(** ** isDirectory and pathExists *)

(** X2.  In every world the two checks agree: when [isDirectory] returns
    success, [pathExists] returns success with message "1"; and when
    [pathExists] returns a failure (the path is empty or missing),
    [isDirectory] returns [Status(1, "Path is not a directory")]. *)
Theorem isDirectory_agrees_with_pathExists :
  forall (w : Os.World) (path : string),
    (exec_result (isDirectory path) w = Returned (mkStatus 0 "OK") ->
     exec_result (pathExists path) w = Returned (mkStatus 0 "1"))
    /\ (forall st, exec_result (pathExists path) w = Returned st ->
                   getCode st <> 0%Z ->
                   exec_result (isDirectory path) w
                   = Returned (mkStatus 1 "Path is not a directory")).
Proof.
  intros w path. unfold exec_result, isDirectory, pathExists.
  cbn [bind unguarded]. rewrite result_call. cbn [Os.handle fst snd].
  unfold Os.os_is_directory.
  destruct path as [|c p].
  - cbn. split; [discriminate | reflexivity].
  - cbn [String.length Nat.eqb]. rewrite result_call. cbn [Os.handle fst snd].
    unfold Os.os_exists.
    destruct (Os.resolve w (String c p)) as [| |[m d|m es]]; cbn;
      (split; [intros H | intros st H Hc]); try discriminate; try reflexivity;
      inversion H; subst; now cbn in Hc.
Qed.

Lemma isDirectory_agrees_with_pathExists_witness :
  exec_result (pathExists "/tmp") example_world = Returned (mkStatus 0 "1")
  /\ exec_result (isDirectory "/definitely/missing") example_world
     = Returned (mkStatus 1 "Path is not a directory").
Proof.
  split.
  - apply (isDirectory_agrees_with_pathExists example_world "/tmp").
    vm_compute. reflexivity.
  - apply (isDirectory_agrees_with_pathExists example_world "/definitely/missing")
      with (mkStatus 1 "0"); [vm_compute; reflexivity | simpl; lia].
Defined.

(** ** readFile *)

(** X3.  Whatever the operating system answers, a failure of the
    existence check is what [readFile] returns: the same status, [content]
    as it was, and no call beyond those of [pathExists] (no stream is
    constructed). *)
Theorem readFile_propagates_pathExists_failure :
  forall (St : Type) (handle : forall X : Type, call X -> St -> X * St) (s : St)
         (path content : string) (st : Status),
    result handle (pathExists path) s = Returned st ->
    getCode st <> 0%Z ->
    result handle (readFile path content) s = Returned (st, content)
    /\ trace handle (readFile path content) s = trace handle (pathExists path) s.
Proof.
  intros St handle s path content st Hres Hcode.
  assert (Hok : ok st = false) by (unfold ok; now apply Z.eqb_neq).
  unfold readFile. rewrite result_bind, trace_bind, Hres, Hok.
  cbn. now rewrite app_nil_r.
Qed.

Lemma readFile_propagates_pathExists_failure_witness :
  result Os.handle (readFile "" "kept") example_world
  = Returned (mkStatus 1 "-1", "kept")
  /\ trace Os.handle (readFile "" "kept") example_world
     = trace Os.handle (pathExists "") example_world.
Proof.
  apply (readFile_propagates_pathExists_failure Os.World Os.handle example_world
           "" "kept" (mkStatus 1 "-1")); [reflexivity | simpl; lia].
Defined.

Lemma str_take_take (n : nat) (s : string) : str_take n (str_take n s) = str_take n s.
Proof.
  revert s. induction n as [|n IH]; intros [|c s]; simpl; try reflexivity.
  now rewrite IH.
Qed.

Lemma to_int_le (z : Z) : (0 <= z)%Z -> (to_int z <= z)%Z.
Proof.
  intros Hz. unfold to_int.
  pose proof (Z.mod_le (z + 2 ^ 31) (2 ^ 32)) as H. lia.
Qed.

Lemma resolve_present (w : Os.World) (path : string) (n : Os.node) :
  Os.resolve w path = Os.Present n ->
  reachable w path /\ Os.w_nodes w !! path = Some n.
Proof.
  unfold Os.resolve, reachable.
  destruct (String.eqb path ""); [discriminate|].
  destruct (bool_decide (path ∈ Os.w_denied w)); [discriminate|].
  destruct (Os.w_nodes w !! path); [|discriminate].
  intros H. inversion H. auto.
Qed.

(** The run of [readFile] up to the allocation of the buffer, on a file
    the process may open for reading. *)
Lemma readFile_after_seek (w : Os.World) (path content : string) (n : Os.node) :
  Os.resolve w path = Os.Present n ->
  Os.permitted w (Os.meta_of n) Os.R_BIT = true ->
  let w3 := Os.set_stream w (Os.mkStream path true false 0) in
  exec_result (readFile path content) w
  = let len := to_int (end_offset w n) in
    if (len <? 0)%Z then Thrown bad_array_new_length
    else
      let r := Os.os_ifs_read w3 len in
      if negb (snd (fst r)) then Returned (mkStatus 1 "Could not read file", content)
      else Returned (mkStatus 0 "OK", assign (fst (fst r)) len).
Proof.
  intros Hres Hperm w3.
  destruct (resolve_present _ _ _ Hres) as [[Hne Hden] Hnode].
  unfold exec_result, readFile, pathExists.
  destruct path as [|c p]; [discriminate|].
  cbn [String.length Nat.eqb bind unguarded sys]. rewrite result_call.
  cbn [Os.handle fst snd]. unfold Os.os_exists. rewrite Hres.
  cbn [bind negb ok getCode Z.eqb].
  rewrite result_call. cbn [Os.handle]. unfold Os.os_ifs_open.
  rewrite Hres, Hperm. cbn [fst snd bind].
  fold w3. rewrite result_call. cbn [Os.handle].
  assert (Hseek : exists st',
             Os.os_ifs_seekg_end_tellg w3
             = (end_offset w n, Os.set_stream w (Os.mkStream (String c p) true false st'))).
  { unfold Os.os_ifs_seekg_end_tellg, Os.usable. cbn.
    rewrite Hnode. destruct n as [m data|m es]; cbn; eexists; reflexivity. }
  destruct Hseek as [pos ->]. cbn [fst snd bind].
  rewrite result_call. cbn [Os.handle].
  rewrite (ifs_seek_beg_good _ (String c p) pos) by reflexivity.
  cbn [fst snd bind].
  change (Os.set_stream (Os.set_stream w _) _) with w3.
  destruct (to_int (end_offset w n) <? 0)%Z; [reflexivity|].
  rewrite result_call. cbn [Os.handle].
  destruct (Os.os_ifs_read w3 (to_int (end_offset w n))) as [[buffer good] w4].
  cbn [fst snd bind]. destruct good; reflexivity.
Qed.

(** X4.  [readFile] on a regular file that the process may read returns
    success and assigns to [content] the first [len] bytes of the file,
    where [len] is the file size converted to [int], provided [len] is not
    negative.  For a file shorter than 2^31 bytes (the empty file
    included) that is the whole file. *)
Theorem readFile_returns_file_bytes :
  forall (w : Os.World) (path content : string) (m : Os.meta) (data : string),
    Os.resolve w path = Os.Present (Os.RegFile m data) ->
    Os.permitted w m Os.R_BIT = true ->
    (0 <= to_int (string_size data))%Z ->
    exec_result (readFile path content) w
    = Returned (mkStatus 0 "OK", str_take (Z.to_nat (to_int (string_size data))) data)
    /\ ((string_size data < 2 ^ 31)%Z ->
        str_take (Z.to_nat (to_int (string_size data))) data = data).
Proof.
  intros w path content m data Hres Hperm Hlen. split.
  - rewrite (readFile_after_seek w path content _ Hres Hperm).
    cbn [end_offset]. cbv zeta.
    destruct (to_int (string_size data) <? 0)%Z eqn:Hneg;
      [apply Z.ltb_lt in Hneg; lia|].
    destruct (resolve_present _ _ _ Hres) as [_ Hnode].
    unfold Os.os_ifs_read, Os.usable.
    cbn [Os.w_stream Os.set_stream Os.is_open Os.is_fail Os.is_path Os.is_pos
         Os.w_nodes negb andb orb].
    rewrite Hneg, Hnode. cbn [str_drop].
    assert (Hle : (to_int (string_size data) <= string_size data)%Z).
    { apply to_int_le. unfold string_size. lia. }
    apply Z.leb_le in Hle. rewrite Hle. cbn [fst snd negb].
    unfold assign. now rewrite str_take_take.
  - intros Hsmall. rewrite to_int_small by (unfold string_size in *; lia).
    unfold string_size. now rewrite Nat2Z.id, str_take_all.
Qed.

Lemma readFile_returns_file_bytes_witness :
  exec_result (readFile "/tmp/shared.log" "before") example_world
  = Returned (mkStatus 0 "OK", str_take (Z.to_nat (to_int (string_size "old"))) "old")
  /\ ((string_size "old" < 2 ^ 31)%Z ->
      str_take (Z.to_nat (to_int (string_size "old"))) "old" = "old").
Proof.
  apply (readFile_returns_file_bytes example_world "/tmp/shared.log" "before"
           (Os.mkMeta 438 1001 1001) "old").
  - vm_compute. reflexivity.
  - vm_compute. reflexivity.
  - vm_compute. discriminate.
Defined.

(** X5.  When the process may open the path for reading and the end
    offset of the file, converted to [int], is negative (a regular file of
    2^31 bytes, or a directory whose end offset the filesystem reports as
    2^63 - 1), the allocation of the buffer throws: [readFile] returns no
    status, the exception leaves it. *)
Theorem readFile_throws_on_negative_length :
  forall (w : Os.World) (path content : string) (n : Os.node),
    Os.resolve w path = Os.Present n ->
    Os.permitted w (Os.meta_of n) Os.R_BIT = true ->
    (to_int (end_offset w n) < 0)%Z ->
    exec_result (readFile path content) w = Thrown bad_array_new_length.
Proof.
  intros w path content n Hres Hperm Hneg.
  rewrite (readFile_after_seek w path content n Hres Hperm). cbv zeta.
  apply Z.ltb_lt in Hneg. now rewrite Hneg.
Qed.

Lemma readFile_throws_on_negative_length_witness :
  exec_result (readFile "/tmp" "before") example_world = Thrown bad_array_new_length.
Proof.
  apply (readFile_throws_on_negative_length example_world "/tmp" "before"
           (Os.Directory (Os.mkMeta 1023 0 0) ["shared.log"])).
  - vm_compute. reflexivity.
  - vm_compute. reflexivity.
  - vm_compute. reflexivity.
Defined.



(** ** writeTextFile in a world *)

(** The run of [writeTextFile], call by call. *)
Lemma writeTextFile_exec (w : Os.World) (path content : string) (mode : Z)
    (force : bool) :
  let o := Os.os_open w path write_flags mode in
  let c := Os.os_chmod (snd o) path mode in
  let wr := Os.os_write (snd c) (fst o) content (string_size content) in
  let cl := Os.os_close (snd wr) (fst o) in
  (exec_result (writeTextFile path content mode force) w,
   exec_final (writeTextFile path content mode force) w)
  = if (fst o <=? 0)%Z then (Returned (mkStatus 1 "Could not create file"), snd o)
    else if negb (fst c =? 0)%Z
         then (Returned (mkStatus 1 "Failed to change permissions"), snd c)
         else if negb (to_size_t (fst wr) =? string_size content)%Z
              then (Returned (mkStatus 1 "Failed to write contents"), snd cl)
              else (Returned (mkStatus 0 "OK"), snd cl).
Proof.
  intros o c wr cl. unfold exec_result, exec_final, writeTextFile.
  cbn [bind sys]. rewrite result_call, final_call. cbn [Os.handle].
  fold write_flags. fold o.
  destruct (fst o <=? 0)%Z; [reflexivity|].
  cbn [bind]. rewrite result_call, final_call. cbn [Os.handle]. fold c.
  destruct (fst c =? 0)%Z; cbn [negb]; [|reflexivity].
  cbn [bind]. rewrite result_call, final_call. cbn [Os.handle]. fold wr.
  destruct (to_size_t (fst wr) =? string_size content)%Z; cbn [negb bind];
    rewrite result_call, final_call; cbn [Os.handle]; fold cl; reflexivity.
Qed.

Lemma os_open_existing (w w1 : Os.World) (path : string) (mode fd : Z)
    (m : Os.meta) (data : string) :
  Os.w_nodes w !! path = Some (Os.RegFile m data) ->
  Os.os_open w path write_flags mode = (fd, w1) ->
  (0 < fd)%Z ->
  same_process w w1 /\ reachable w path /\ Os.w_nodes w1 = Os.w_nodes w
  /\ Os.w_fds w1 !! fd = Some (Os.mkFd path write_flags 0).
Proof.
  intros Hnode Hopen Hfd. unfold Os.os_open in Hopen.
  destruct write_flags_facts as (Hsup & Hacc & Hcreat & Happend).
  rewrite Hsup, Hacc in Hopen. cbn [negb] in Hopen.
  unfold Os.resolve in Hopen. unfold reachable.
  destruct (String.eqb path "") eqn:Hempty.
  - rewrite Hcreat in Hopen. apply String.eqb_eq in Hempty. subst path.
    cbn in Hopen. inversion Hopen; subst. lia.
  - destruct (bool_decide (path ∈ Os.w_denied w)) eqn:Hden;
      [inversion Hopen; subst; lia|].
    rewrite Hnode in Hopen.
    change (1 =? O_WRONLY)%Z with true in Hopen.
    change (1 =? 0)%Z with false in Hopen. cbn [negb implb andb] in Hopen.
    destruct (Os.permitted w m Os.W_BIT); [|inversion Hopen; subst; lia].
    apply install_fd_spec in Hopen. destruct Hopen as (Hproc & Hnodes & Hfds).
    repeat split; try apply Hproc; assumption.
Qed.

Lemma os_chmod_owner (w w2 : Os.World) (path : string) (mode : Z) (n : Os.node) :
  Os.os_chmod w path mode = (0%Z, w2) ->
  reachable w path ->
  Os.w_nodes w !! path = Some n ->
  Os.w_euid w = 0%Z \/ Os.st_uid (Os.meta_of n) = Os.w_euid w.
Proof.
  intros Hch [Hne Hden] Hnode. unfold Os.os_chmod, Os.resolve in Hch.
  rewrite Hne, Hden, Hnode in Hch.
  destruct (Os.w_euid w =? 0)%Z eqn:Hroot; [left; now apply Z.eqb_eq|].
  destruct (Os.st_uid (Os.meta_of n) =? Os.w_euid w)%Z eqn:Hown;
    [right; now apply Z.eqb_eq | discriminate].
Qed.

(** What a successful call goes through. *)
Lemma writeTextFile_ok_steps (w : Os.World) (path content : string) (mode : Z)
    (force : bool) :
  exec_result (writeTextFile path content mode force) w = Returned (mkStatus 0 "OK") ->
  exists fd w1 w2 n w3 r,
    Os.os_open w path write_flags mode = (fd, w1) /\ (0 < fd)%Z
    /\ Os.os_chmod w1 path mode = (0%Z, w2)
    /\ Os.os_write w2 fd content (string_size content) = (n, w3)
    /\ to_size_t n = string_size content
    /\ Os.os_close w3 fd = (r, exec_final (writeTextFile path content mode force) w).
Proof.
  intros Hres. pose proof (writeTextFile_exec w path content mode force) as Hrun.
  cbv zeta in Hrun. rewrite Hres in Hrun.
  destruct (Os.os_open w path write_flags mode) as [fd w1] eqn:Hopen.
  cbn [fst snd] in Hrun.
  destruct (fd <=? 0)%Z eqn:Hfd; [inversion Hrun|]. apply Z.leb_gt in Hfd.
  destruct (Os.os_chmod w1 path mode) as [rc w2] eqn:Hchmod. cbn [fst snd] in Hrun.
  destruct (rc =? 0)%Z eqn:Hrc; cbn [negb] in Hrun; [|inversion Hrun].
  apply Z.eqb_eq in Hrc. subst rc.
  destruct (Os.os_write w2 fd content (string_size content)) as [n w3] eqn:Hwrite.
  cbn [fst snd] in Hrun.
  destruct (to_size_t n =? string_size content)%Z eqn:Hn; cbn [negb] in Hrun;
    [|inversion Hrun].
  apply Z.eqb_eq in Hn.
  destruct (Os.os_close w3 fd) as [r w4] eqn:Hclose. cbn [snd] in Hrun.
  inversion Hrun as [Hfinal].
  exists fd, w1, w2, n, w3, r. rewrite Hfinal. repeat split; assumption.
Qed.

(** X7.  A successful [writeTextFile] on a regular file that is already
    there keeps what the file held and puts [content] after it; the nine
    permission bits of the file (read, write and execute for owner, group
    and others) become those of [permissions], whatever the mode was and
    whatever the umask is; owner and group stay.  Nothing is said about
    the set-user-ID, set-group-ID and sticky bits: the kernel may clear
    them when the file is written. *)
Theorem writeTextFile_appends_to_existing_file :
  forall (w : Os.World) (path content : string) (mode : Z) (force : bool)
         (m : Os.meta) (data : string),
    Os.w_nodes w !! path = Some (Os.RegFile m data) ->
    std_string content ->
    exec_result (writeTextFile path content mode force) w = Returned (mkStatus 0 "OK") ->
    exists m' : Os.meta,
      Os.w_nodes (exec_final (writeTextFile path content mode force) w) !! path
      = Some (Os.RegFile m' (data +:+ content))
      /\ Z.land (Os.st_mode m') 511 = Z.land mode 511
      /\ Os.st_uid m' = Os.st_uid m
      /\ Os.st_gid m' = Os.st_gid m.
Proof.
  intros w path content mode force m data Hnode Hstd Hres.
  destruct (writeTextFile_ok_steps _ _ _ _ _ Hres)
    as (fd & w1 & w2 & n & w3 & r & Hopen & Hfd & Hchmod & Hwrite & Hn & Hclose).
  destruct (os_open_existing _ _ _ _ _ _ _ Hnode Hopen Hfd)
    as (P1 & Hreach & Hnodes1 & Hfds1).
  rewrite <- Hnodes1 in Hnode.
  pose proof (reachable_same_process _ _ _ P1 Hreach) as Hreach1.
  destruct (os_chmod_ok _ _ _ _ _ _ Hchmod Hreach1 Hnode) as (P2 & Hfds2 & Hnode2).
  rewrite <- Hfds2 in Hfds1.
  destruct (os_write_all _ _ _ _ _ _ _ _ Hwrite Hn Hstd Hfds1 Hnode2) as (P3 & Hnode3).
  destruct (os_close_spec _ _ _ _ Hclose) as (P4 & Hnodes4).
  eexists. rewrite Hnodes4. split; [exact Hnode3|].
  destruct (write_meta_permissions w2
              (Os.mkMeta (Os.chmod_mode w1 m mode) (Os.st_uid m) (Os.st_gid m))
              (string_size content)) as (Hbits & Hu & Hg).
  rewrite Hbits, Hu, Hg. cbn [Os.st_mode Os.st_uid Os.st_gid].
  split; [apply chmod_mode_permissions | split; reflexivity].
Qed.

Lemma writeTextFile_appends_to_existing_file_witness :
  exists m' : Os.meta,
    Os.w_nodes (exec_final (writeTextFile "/tmp/notes" "world" 2496 false) notes_world)
      !! "/tmp/notes"
    = Some (Os.RegFile m' ("hello " +:+ "world"))
    /\ Z.land (Os.st_mode m') 511 = Z.land 2496 511
    /\ Os.st_uid m' = Os.st_uid (Os.mkMeta 420 1000 1000)
    /\ Os.st_gid m' = Os.st_gid (Os.mkMeta 420 1000 1000).
Proof.
  apply (writeTextFile_appends_to_existing_file notes_world "/tmp/notes" "world"
           2496 false (Os.mkMeta 420 1000 1000) "hello ").
  - vm_compute. reflexivity.
  - unfold std_string. vm_compute. reflexivity.
  - vm_compute. reflexivity.
Defined.

(** With the set-user-ID bit requested (mode 04700), the file is left with
    mode 0700: the write that follows the mode change clears the bit. *)
Example writeTextFile_clears_set_user_id :
  Os.w_nodes (exec_final (writeTextFile "/tmp/notes" "world" 2496 false) notes_world)
    !! "/tmp/notes"
  = Some (Os.RegFile (Os.mkMeta 448 1000 1000) "hello world").
Proof. vm_compute. reflexivity. Qed.

(** X8.  [writeTextFile] succeeds on a file that is already there only for
    its owner and for the superuser: the mode change that every call makes
    is refused to anyone else, also when the file's mode lets them write. *)
Theorem writeTextFile_succeeds_only_for_owner :
  forall (w : Os.World) (path content : string) (mode : Z) (force : bool)
         (m : Os.meta) (data : string),
    Os.w_nodes w !! path = Some (Os.RegFile m data) ->
    exec_result (writeTextFile path content mode force) w = Returned (mkStatus 0 "OK") ->
    Os.w_euid w = 0%Z \/ Os.st_uid m = Os.w_euid w.
Proof.
  intros w path content mode force m data Hnode Hres.
  destruct (writeTextFile_ok_steps _ _ _ _ _ Hres)
    as (fd & w1 & w2 & n & w3 & r & Hopen & Hfd & Hchmod & _).
  destruct (os_open_existing _ _ _ _ _ _ _ Hnode Hopen Hfd)
    as (P1 & Hreach & Hnodes1 & _).
  assert (Hnode1 : Os.w_nodes w1 !! path = Some (Os.RegFile m data))
    by (rewrite Hnodes1; exact Hnode).
  pose proof (reachable_same_process _ _ _ P1 Hreach) as Hreach1.
  destruct P1 as (He & _).
  destruct (os_chmod_owner w1 w2 path mode _ Hchmod Hreach1 Hnode1) as [H|H].
  - left. congruence.
  - right. cbn in H. congruence.
Qed.

Lemma writeTextFile_succeeds_only_for_owner_witness :
  Os.w_euid notes_world = 0%Z \/ Os.st_uid (Os.mkMeta 420 1000 1000) = Os.w_euid notes_world.
Proof.
  apply (writeTextFile_succeeds_only_for_owner notes_world "/tmp/notes" "world"
           384 false (Os.mkMeta 420 1000 1000) "hello ").
  - vm_compute. reflexivity.
  - vm_compute. reflexivity.
Defined.

Lemma lowest_free_zero (fds : gmap Z Os.fdesc) (fuel : nat) :
  fds !! 0%Z = None -> Os.lowest_free fds fuel 0 = 0%Z.
Proof. intros H. destruct fuel; cbn; [reflexivity | now rewrite H]. Qed.

(** [open] with the flags of [writeTextFile] either fails and changes
    nothing, or installs the lowest free descriptor on a regular file. *)
Lemma os_open_cases (w w1 : Os.World) (path : string) (mode fd : Z) :
  Os.os_open w path write_flags mode = (fd, w1) ->
  (fd = (-1)%Z /\ w1 = w)
  \/ (fd = Os.lowest_free (Os.w_fds w) (size (Os.w_fds w)) 0
      /\ Os.w_fds w1 !! fd = Some (Os.mkFd path write_flags 0)
      /\ exists m, Os.w_nodes w1 !! path = Some (Os.RegFile m (old_data w path))).
Proof.
  intros Hopen. unfold Os.os_open in Hopen.
  destruct write_flags_facts as (Hsup & Hacc & Hcreat & Happend).
  rewrite Hsup, Hacc, Hcreat in Hopen. cbn [negb] in Hopen.
  unfold Os.resolve in Hopen. unfold old_data, Os.file_data.
  destruct (String.eqb path "") eqn:Hempty.
  - apply String.eqb_eq in Hempty. subst path.
    cbn in Hopen. inversion Hopen; subst. now left.
  - destruct (bool_decide (path ∈ Os.w_denied w)) eqn:Hden;
      [inversion Hopen; subst; now left|].
    destruct (Os.w_nodes w !! path) as [[m data|m entries]|] eqn:Hnode.
    + change (1 =? O_WRONLY)%Z with true in Hopen.
      change (1 =? 0)%Z with false in Hopen. cbn [negb implb andb] in Hopen.
      destruct (Os.permitted w m Os.W_BIT); [|inversion Hopen; subst; now left].
      right. unfold Os.install_fd in Hopen. inversion Hopen; subst. clear Hopen.
      cbn [Os.w_fds Os.w_nodes Os.set_fds].
      split; [reflexivity|]. split; [apply lookup_insert_eq|].
      exists m. exact Hnode.
    + change (1 =? 0)%Z with false in Hopen. cbn [andb] in Hopen.
      inversion Hopen; subst. now left.
    + destruct (Os.os_creat w path mode) as [w'|] eqn:Hcreate;
        [|inversion Hopen; subst; now left].
      right. unfold Os.os_creat in Hcreate.
      destruct (Os.container path) as [dir base].
      destruct (String.eqb base ""); [discriminate|].
      destruct (Os.resolve w dir) as [| |[dm dd|dm entries]]; try discriminate.
      destruct (Os.permitted w dm Os.W_BIT && Os.permitted w dm Os.X_BIT);
        [|discriminate].
      inversion Hcreate; subst w'. clear Hcreate.
      unfold Os.install_fd in Hopen. inversion Hopen; subst. clear Hopen.
      cbn [Os.w_fds Os.w_nodes Os.set_fds Os.set_nodes].
      split; [reflexivity|]. split; [apply lookup_insert_eq|].
      eexists. apply lookup_insert_eq.
Qed.

(** X9.  In a process whose descriptor 0 is free, [writeTextFile] returns
    "Could not create file" for every path, content and mode, and never
    calls [close]: [open] either fails or answers 0, and the test
    [output_fd <= 0] takes 0 for a failure.  When [open] answered 0 the
    file is there afterwards and descriptor 0 stays open on it. *)
Theorem writeTextFile_fails_when_descriptor_zero_is_free :
  forall (w : Os.World) (path content : string) (mode : Z) (force : bool),
    Os.w_fds w !! 0%Z = None ->
    exec_result (writeTextFile path content mode force) w
    = Returned (mkStatus 1 "Could not create file")
    /\ closes 0 (exec_trace (writeTextFile path content mode force) w) = 0%nat
    /\ (fst (Os.os_open w path write_flags mode) = 0%Z ->
        Os.w_fds (exec_final (writeTextFile path content mode force) w) !! 0%Z
        = Some (Os.mkFd path write_flags 0)
        /\ exists m,
             Os.w_nodes (exec_final (writeTextFile path content mode force) w) !! path
             = Some (Os.RegFile m (old_data w path))).
Proof.
  intros w path content mode force Hfree.
  pose proof (writeTextFile_exec w path content mode force) as Hrun.
  cbv zeta in Hrun.
  unfold exec_trace, writeTextFile at 2. cbn [bind sys]. rewrite trace_call.
  cbn [Os.handle]. fold write_flags.
  destruct (Os.os_open w path write_flags mode) as [fd w1] eqn:Hopen.
  cbn [fst snd] in *.
  assert (Hle : (fd <=? 0)%Z = true).
  { apply Z.leb_le.
    destruct (os_open_cases _ _ _ _ _ Hopen) as [[-> _]|[Hfd _]]; [lia|].
    rewrite lowest_free_zero in Hfd by assumption. lia. }
  rewrite Hle in *. inversion Hrun as [[Hres Hfinal]].
  split; [reflexivity|]. split; [reflexivity|].
  intros ->.
  destruct (os_open_cases _ _ _ _ _ Hopen) as [[H _]|(_ & Hfds & Hnode)];
    [discriminate H|].
  rewrite Hfinal. split; assumption.
Qed.

Lemma writeTextFile_fails_when_descriptor_zero_is_free_witness :
  exec_result (writeTextFile "/tmp/fresh" "x" 420 true) no_stdin_world
  = Returned (mkStatus 1 "Could not create file")
  /\ closes 0 (exec_trace (writeTextFile "/tmp/fresh" "x" 420 true) no_stdin_world) = 0%nat
  /\ (fst (Os.os_open no_stdin_world "/tmp/fresh" write_flags 420) = 0%Z ->
      Os.w_fds (exec_final (writeTextFile "/tmp/fresh" "x" 420 true) no_stdin_world) !! 0%Z
      = Some (Os.mkFd "/tmp/fresh" write_flags 0)
      /\ exists m,
           Os.w_nodes (exec_final (writeTextFile "/tmp/fresh" "x" 420 true) no_stdin_world)
             !! "/tmp/fresh"
           = Some (Os.RegFile m (old_data no_stdin_world "/tmp/fresh"))).
Proof.
  apply (writeTextFile_fails_when_descriptor_zero_is_free no_stdin_world
           "/tmp/fresh" "x" 420 true).
  vm_compute. reflexivity.
Defined.

(** In the example process without standard input, [open] does answer 0:
    the file is created and stays open while the call reports a failure. *)
Example writeTextFile_descriptor_zero :
  fst (Os.os_open no_stdin_world "/tmp/fresh" write_flags 420) = 0%Z
  /\ Os.file_data (exec_final (writeTextFile "/tmp/fresh" "x" 420 true) no_stdin_world)
       "/tmp/fresh" = Some "".
Proof. vm_compute. split; reflexivity. Qed.

Lemma os_write_short (w w3 : Os.World) (fd n : Z) (path content : string)
    (m : Os.meta) (data : string) :
  Os.os_write w fd content (string_size content) = (n, w3) ->
  to_size_t n <> string_size content ->
  std_string content ->
  Os.w_fds w !! fd = Some (Os.mkFd path write_flags 0) ->
  Os.w_nodes w !! path = Some (Os.RegFile m data) ->
  exists k : nat,
    (k < String.length content)%nat
    /\ Os.w_nodes w3 !! path
       = Some (Os.RegFile (Os.write_meta w m (string_size content))
                          (data +:+ str_take k content)).
Proof.
  intros Hwr Hn Hstd Hfd Hnode. unfold Os.os_write in Hwr.
  rewrite Hfd in Hwr. cbn [Os.fd_flags Os.fd_path Os.fd_offset] in Hwr.
  destruct write_flags_facts as (_ & Hacc & _ & Happend).
  rewrite Hacc, Happend, Hnode in Hwr.
  change (1 =? 0)%Z with false in Hwr. cbn [orb] in Hwr.
  unfold std_string, string_size, to_size_t in *.
  destruct (Z.of_nat (String.length content) <? 0)%Z eqn:Hneg;
    [apply Z.ltb_lt in Hneg; lia|].
  destruct ((0 <? Z.of_nat (String.length content))%Z
            && (Z.max 0 (Os.w_space w) =? 0)%Z) eqn:Hfull.
  - inversion Hwr; subst. clear Hwr.
    apply andb_true_iff in Hfull. destruct Hfull as [Hpos _].
    apply Z.ltb_lt in Hpos.
    exists 0%nat. split; [lia|]. cbn [Os.w_nodes Os.set_nodes].
    rewrite lookup_insert_eq.
    destruct content; cbn [str_take]; now rewrite append_empty_r.
  - inversion Hwr; subst. clear Hwr.
    set (k := Z.min (Z.min (Z.of_nat (String.length content))
                           (Z.of_nat (String.length content)))
                    (Z.max 0 (Os.w_space w))) in *.
    assert (Hk : (0 <= k <= Z.of_nat (String.length content))%Z) by lia.
    rewrite Z.mod_small in Hn by lia.
    exists (Z.to_nat k). split; [lia|].
    rewrite write_at_end. cbn. apply lookup_insert_eq.
Qed.

(** X10.  When [writeTextFile] fails with "Failed to write contents", the
    bytes that [write] did transfer stay in the file: afterwards the file
    holds what it held before followed by a proper prefix of [content]
    (possibly the empty one).  Nothing is rolled back. *)
Theorem writeTextFile_short_write_keeps_prefix :
  forall (w : Os.World) (path content : string) (mode : Z) (force : bool),
    std_string content ->
    exec_result (writeTextFile path content mode force) w
    = Returned (mkStatus 1 "Failed to write contents") ->
    exists k : nat,
      (k < String.length content)%nat
      /\ Os.file_data (exec_final (writeTextFile path content mode force) w) path
         = Some (old_data w path +:+ str_take k content).
Proof.
  intros w path content mode force Hstd Hres.
  pose proof (writeTextFile_exec w path content mode force) as Hrun.
  cbv zeta in Hrun. rewrite Hres in Hrun.
  destruct (Os.os_open w path write_flags mode) as [fd w1] eqn:Hopen.
  cbn [fst snd] in Hrun.
  destruct (fd <=? 0)%Z eqn:Hfd; [inversion Hrun|]. apply Z.leb_gt in Hfd.
  destruct (Os.os_chmod w1 path mode) as [rc w2] eqn:Hchmod. cbn [fst snd] in Hrun.
  destruct (rc =? 0)%Z eqn:Hrc; cbn [negb] in Hrun; [|inversion Hrun].
  apply Z.eqb_eq in Hrc. subst rc.
  destruct (Os.os_write w2 fd content (string_size content)) as [n w3] eqn:Hwrite.
  cbn [fst snd] in Hrun.
  destruct (to_size_t n =? string_size content)%Z eqn:Hn; cbn [negb] in Hrun;
    [inversion Hrun|].
  apply Z.eqb_neq in Hn.
  destruct (Os.os_close w3 fd) as [r w4] eqn:Hclose. cbn [snd] in Hrun.
  inversion Hrun as [Hfinal]. rewrite Hfinal.
  destruct (os_open_write _ _ _ _ _ Hopen Hfd) as (P1 & Hreach & Hfds & m & Hnode & _).
  pose proof (reachable_same_process _ _ _ P1 Hreach) as Hreach1.
  destruct (os_chmod_ok _ _ _ _ _ _ Hchmod Hreach1 Hnode) as (P2 & Hfds2 & Hnode2).
  rewrite <- Hfds2 in Hfds.
  destruct (os_write_short _ _ _ _ _ _ _ _ Hwrite Hn Hstd Hfds Hnode2)
    as (k & Hk & Hnode3).
  destruct (os_close_spec _ _ _ _ Hclose) as (_ & Hnodes4).
  exists k. split; [exact Hk|].
  unfold Os.file_data. now rewrite Hnodes4, Hnode3.
Qed.

Lemma writeTextFile_short_write_keeps_prefix_witness :
  exists k : nat,
    (k < String.length "xyz")%nat
    /\ Os.file_data (exec_final (writeTextFile "/tmp/fresh" "xyz" 384 true) full_disk_world)
         "/tmp/fresh"
       = Some (old_data full_disk_world "/tmp/fresh" +:+ str_take k "xyz").
Proof.
  apply (writeTextFile_short_write_keeps_prefix full_disk_world "/tmp/fresh" "xyz"
           384 true).
  - unfold std_string. vm_compute. reflexivity.
  - vm_compute. reflexivity.
Defined.

(** X11.  On the empty path, on a path behind a directory the process may
    not search, and on a directory, [writeTextFile] fails with "Could not
    create file" and leaves the world as it was: no file is created or
    changed and no descriptor is taken. *)
Theorem writeTextFile_refused_paths :
  forall (w : Os.World) (path content : string) (mode : Z) (force : bool),
    path = "" \/ Os.resolve w path = Os.Denied
    \/ (exists m entries, Os.resolve w path = Os.Present (Os.Directory m entries)) ->
    exec_result (writeTextFile path content mode force) w
    = Returned (mkStatus 1 "Could not create file")
    /\ exec_final (writeTextFile path content mode force) w = w.
Proof.
  intros w path content mode force Hpath.
  assert (Hopen : Os.os_open w path write_flags mode = ((-1)%Z, w)).
  { unfold Os.os_open.
    destruct write_flags_facts as (Hsup & Hacc & Hcreat & _).
    rewrite Hsup, Hacc, Hcreat. cbn [negb].
    destruct Hpath as [-> | [Hden | (m & es & Hdir)]].
    - reflexivity.
    - now rewrite Hden.
    - rewrite Hdir. reflexivity. }
  pose proof (writeTextFile_exec w path content mode force) as Hrun.
  cbv zeta in Hrun. rewrite Hopen in Hrun. cbn [fst snd] in Hrun.
  change (-1 <=? 0)%Z with true in Hrun. cbv iota in Hrun.
  now apply pair_equal_spec in Hrun.
Qed.

Lemma writeTextFile_refused_paths_witness :
  exec_result (writeTextFile "/tmp" "x" 420 true) example_world
  = Returned (mkStatus 1 "Could not create file")
  /\ exec_final (writeTextFile "/tmp" "x" 420 true) example_world = example_world.
Proof.
  apply (writeTextFile_refused_paths example_world "/tmp" "x" 420 true).
  right. right. exists (Os.mkMeta 1023 0 0), ["shared.log"].
  vm_compute. reflexivity.
Defined.

(** ** listFilesInDirectory, called again *)

(** X12.  [listFilesInDirectory] changes nothing in the world, and what it
    does with [results] does not depend on what [results] holds: there are
    a status and a list of entries such that every call returns that status
    and [results] followed by those entries.  A second call on the output of
    the first therefore appends the same entries a second time; the caller
    has to clear the vector between calls. *)
Theorem listFilesInDirectory_accumulates :
  forall (w : Os.World) (path : string),
  exists (st : Status) (listed : list string),
    forall results : list string,
      exec_result (listFilesInDirectory path results) w
      = Returned (st, results ++ listed)
      /\ exec_final (listFilesInDirectory path results) w = w
      /\ exec_result (listFilesInDirectory path (results ++ listed))
                     (exec_final (listFilesInDirectory path results) w)
         = Returned (st, results ++ listed ++ listed).
Proof.
  intros w path.
  assert (Hshape : exists st listed, forall results,
             exec_result (listFilesInDirectory path results) w
             = Returned (st, results ++ listed)
             /\ exec_final (listFilesInDirectory path results) w = w).
  { unfold exec_result, exec_final, listFilesInDirectory. cbn [bind sys].
    destruct (Os.os_exists w path) as [[|]|what] eqn:Hex.
    - destruct (Os.os_is_directory w path) as [[|]|what] eqn:Hdir.
      + destruct (Os.os_directory_iterator w path) as [ys [what|]] eqn:Hit.
        * exists (mkStatus 1 what), ys. intros results.
          rewrite result_call, final_call. cbn [Os.handle fst snd].
          rewrite Hex. cbn [bind]. rewrite result_call, final_call.
          cbn [Os.handle fst snd]. rewrite Hdir. cbn [bind].
          rewrite result_call, final_call. cbn [Os.handle fst snd].
          rewrite Hit. cbn. now rewrite push_entries_app.
        * exists (mkStatus 0 "OK"), ys. intros results.
          rewrite result_call, final_call. cbn [Os.handle fst snd].
          rewrite Hex. cbn [bind]. rewrite result_call, final_call.
          cbn [Os.handle fst snd]. rewrite Hdir. cbn [bind].
          rewrite result_call, final_call. cbn [Os.handle fst snd].
          rewrite Hit. cbn. now rewrite push_entries_app.
      + exists (mkStatus 1 "Supplied path is not a directory"), []. intros results.
        rewrite result_call, final_call. cbn [Os.handle fst snd].
        rewrite Hex. cbn [bind]. rewrite result_call, final_call.
        cbn [Os.handle fst snd]. rewrite Hdir. cbn. now rewrite app_nil_r.
      + exists (mkStatus 1 what), []. intros results.
        rewrite result_call, final_call. cbn [Os.handle fst snd].
        rewrite Hex. cbn [bind]. rewrite result_call, final_call.
        cbn [Os.handle fst snd]. rewrite Hdir. cbn. now rewrite app_nil_r.
    - exists (mkStatus 1 "Directory not found"), []. intros results.
      rewrite result_call, final_call. cbn [Os.handle fst snd].
      rewrite Hex. cbn. now rewrite app_nil_r.
    - exists (mkStatus 1 what), []. intros results.
      rewrite result_call, final_call. cbn [Os.handle fst snd].
      rewrite Hex. cbn. now rewrite app_nil_r. }
  destruct Hshape as (st & listed & Hshape).
  exists st, listed. intros results.
  destruct (Hshape results) as [Hr Hf].
  split; [exact Hr|]. split; [exact Hf|].
  rewrite Hf. destruct (Hshape (results ++ listed)) as [Hr2 _].
  rewrite Hr2. now rewrite <- app_assoc.
Qed.

(** In the example world a second listing of [/tmp] doubles the entry. *)
Example listFilesInDirectory_twice :
  exec_result (listFilesInDirectory "/tmp" ["/tmp/shared.log"]) example_world
  = Returned (mkStatus 0 "OK", ["/tmp/shared.log"; "/tmp/shared.log"]).
Proof. vm_compute. reflexivity. Qed.

(** ** parseTomcatUserConfig: success and rejected documents *)

Section ParseOutcome.

Context {St : Type}.
Variable handle : forall X : Type, call X -> St -> X * St.

Lemma parse_users_ok_inv (items : list (string * pt.ptree))
    (credentials out : Credentials) (st : Status) (s : St) :
  result handle (parse_users items credentials) s = Returned (st, out) ->
  getCode st = 0%Z ->
  users_well_formed items.
Proof.
  revert credentials. induction items as [|[k t] items IH]; intros credentials Hres Hok.
  - constructor.
  - cbn [parse_users] in Hres. unfold users_well_formed.
    destruct (String.eqb k "user") eqn:Hk.
    + destruct (pt.get t "<xmlattr>.username") as [u|what] eqn:Hu.
      * destruct (pt.get t "<xmlattr>.password") as [p|what] eqn:Hp.
        -- constructor; [|now apply IH with (push_back credentials (u, p))].
           intros _. cbn [snd]. unfold user_credential. now rewrite Hu, Hp.
        -- cbn [bind sys] in Hres. rewrite result_call in Hres.
           inversion Hres; subst. discriminate Hok.
      * cbn [bind sys] in Hres. rewrite result_call in Hres.
        inversion Hres; subst. discriminate Hok.
    + constructor; [|now apply IH with credentials].
      cbn [fst]. intros ->. discriminate Hk.
Qed.

(** The parse does not depend on the state it runs in. *)
Lemma parse_users_any_state (items : list (string * pt.ptree))
    (credentials : Credentials) (s s' : St) :
  result handle (parse_users items credentials) s
  = result handle (parse_users items credentials) s'.
Proof.
  revert credentials. induction items as [|[k t] items IH]; intros credentials.
  - reflexivity.
  - cbn [parse_users]. destruct (String.eqb k "user"); [|apply IH].
    destruct (pt.get t "<xmlattr>.username"); [|reflexivity].
    destruct (pt.get t "<xmlattr>.password"); [apply IH | reflexivity].
Qed.

Lemma parseTomcatUserConfig_any_state (read_xml : string -> reply pt.ptree)
    (content : string) (credentials : Credentials) (s s' : St) :
  result handle (parseTomcatUserConfig read_xml content credentials) s
  = result handle (parseTomcatUserConfig read_xml content credentials) s'.
Proof.
  unfold parseTomcatUserConfig. destruct (read_xml content); [|reflexivity].
  destruct (pt.get_child _ _); [apply parse_users_any_state | reflexivity].
Qed.

End ParseOutcome.

(** X13.  For a document that parses and has a [tomcat-users] element,
    [parseTomcatUserConfig] succeeds exactly when every [user] child has
    both attributes.  It then returns [Status(0, "OK")] and [credentials]
    followed by one pair per [user] child, in document order; children
    with other names add nothing and duplicates are kept. *)
Theorem parseTomcatUserConfig_succeeds_iff_users_complete :
  forall (St : Type) (handle : forall X : Type, call X -> St -> X * St) (s : St)
         (read_xml : string -> reply pt.ptree) (content : string)
         (tree users : pt.ptree) (credentials : Credentials),
    read_xml content = Value tree ->
    pt.get_child tree "tomcat-users" = Value users ->
    (users_well_formed (pt.children users) ->
     result handle (parseTomcatUserConfig read_xml content credentials) s
     = Returned (mkStatus 0 "OK", credentials ++ credentials_of (pt.children users)))
    /\ (forall st out,
          result handle (parseTomcatUserConfig read_xml content credentials) s
          = Returned (st, out) ->
          getCode st = 0%Z ->
          users_well_formed (pt.children users)).
Proof.
  intros St handle s read_xml content tree users credentials Hxml Husers.
  unfold parseTomcatUserConfig. rewrite Hxml, Husers. split.
  - intros Hwf. rewrite <- (app_nil_r (pt.children users)) at 1.
    now rewrite parse_users_app.
  - intros st out Hres Hok. eapply parse_users_ok_inv; eassumption.
Qed.

Lemma parseTomcatUserConfig_succeeds_iff_users_complete_witness :
  result Os.handle (parseTomcatUserConfig read_examples complete_doc [("root", "toor")])
         example_world
  = Returned (mkStatus 0 "OK",
              [("root", "toor")] ++ [("alice", "secret1"); ("bob", "secret2")]).
Proof.
  apply (parseTomcatUserConfig_succeeds_iff_users_complete Os.World Os.handle
           example_world read_examples complete_doc complete_tree complete_users
           [("root", "toor")]).
  - reflexivity.
  - reflexivity.
  - constructor; [intros _; vm_compute; discriminate|].
    constructor; [intros H; discriminate H|].
    constructor; [intros _; vm_compute; discriminate|].
    constructor.
Defined.

(** X14.  A document that does not parse makes [parseTomcatUserConfig]
    fail with the parser's text, without a log line; a document without a
    [tomcat-users] element at its root makes it fail with "No such node
    (tomcat-users)".  In both cases [credentials] is as it was. *)
Theorem parseTomcatUserConfig_rejects_document :
  forall (St : Type) (handle : forall X : Type, call X -> St -> X * St) (s : St)
         (read_xml : string -> reply pt.ptree) (content : string)
         (credentials : Credentials),
    (forall what,
       read_xml content = Raised what ->
       result handle (parseTomcatUserConfig read_xml content credentials) s
       = Returned (mkStatus 1 what, credentials)
       /\ trace handle (parseTomcatUserConfig read_xml content credentials) s = [])
    /\ (forall tree,
          read_xml content = Value tree ->
          pt.find "tomcat-users" (pt.children tree) = None ->
          result handle (parseTomcatUserConfig read_xml content credentials) s
          = Returned (mkStatus 1 "No such node (tomcat-users)", credentials)).
Proof.
  intros St handle s read_xml content credentials. split.
  - intros what Hxml. unfold parseTomcatUserConfig. rewrite Hxml. split; reflexivity.
  - intros tree Hxml Hfind. unfold parseTomcatUserConfig. rewrite Hxml.
    unfold pt.get_child.
    change (pt.fragments "tomcat-users") with ["tomcat-users"].
    cbn [pt.walk_path]. rewrite Hfind. reflexivity.
Qed.

Lemma parseTomcatUserConfig_rejects_document_witness :
  (result Os.handle (parseTomcatUserConfig read_examples "<tomcat-users>" []) example_world
   = Returned (mkStatus 1 "<unspecified file>(1): expected <", [])
   /\ trace Os.handle (parseTomcatUserConfig read_examples "<tomcat-users>" []) example_world
      = [])
  /\ result Os.handle (parseTomcatUserConfig read_examples "<server/>" []) example_world
     = Returned (mkStatus 1 "No such node (tomcat-users)", []).
Proof.
  destruct (parseTomcatUserConfig_rejects_document Os.World Os.handle example_world
              read_examples "<tomcat-users>" []) as [Hbad _].
  destruct (parseTomcatUserConfig_rejects_document Os.World Os.handle example_world
              read_examples "<server/>" []) as [_ Hroot].
  split.
  - apply Hbad. reflexivity.
  - apply (Hroot (pt.Node "" [("server", pt.Node "" [])])); reflexivity.
Defined.

(** ** parseTomcatUserConfigFromDisk *)

(** X15.  Whatever the operating system answers, when [readFile] returns a
    failure, [parseTomcatUserConfigFromDisk] returns that same status,
    leaves [credentials] as it was and makes no call of its own: nothing is
    parsed and nothing is logged. *)
Theorem parseTomcatUserConfigFromDisk_propagates_read_failure :
  forall (St : Type) (handle : forall X : Type, call X -> St -> X * St) (s : St)
         (read_xml : string -> reply pt.ptree) (path : string)
         (credentials : Credentials) (st : Status) (content : string),
    result handle (readFile path "") s = Returned (st, content) ->
    getCode st <> 0%Z ->
    result handle (parseTomcatUserConfigFromDisk read_xml path credentials) s
    = Returned (st, credentials)
    /\ trace handle (parseTomcatUserConfigFromDisk read_xml path credentials) s
       = trace handle (readFile path "") s.
Proof.
  intros St handle s read_xml path credentials st content Hres Hcode.
  assert (Hok : ok st = false) by (unfold ok; now apply Z.eqb_neq).
  unfold parseTomcatUserConfigFromDisk. rewrite result_bind, trace_bind, Hres, Hok.
  cbn. now rewrite app_nil_r.
Qed.

Lemma parseTomcatUserConfigFromDisk_propagates_read_failure_witness :
  result Os.handle
         (parseTomcatUserConfigFromDisk read_examples "/definitely/missing" [("a", "b")])
         example_world
  = Returned (mkStatus 1 "0", [("a", "b")])
  /\ trace Os.handle
           (parseTomcatUserConfigFromDisk read_examples "/definitely/missing" [("a", "b")])
           example_world
     = trace Os.handle (readFile "/definitely/missing" "") example_world.
Proof.
  apply (parseTomcatUserConfigFromDisk_propagates_read_failure Os.World Os.handle
           example_world read_examples "/definitely/missing" [("a", "b")]
           (mkStatus 1 "0") "").
  - vm_compute. reflexivity.
  - simpl. lia.
Defined.

(** Parsing from a readable file is parsing its bytes. *)
Lemma fromDisk_reads (read_xml : string -> reply pt.ptree) (w : Os.World)
    (path : string) (credentials : Credentials) (m : Os.meta) (data : string) :
  reachable w path ->
  Os.w_nodes w !! path = Some (Os.RegFile m data) ->
  Os.permitted w m Os.R_BIT = true ->
  (string_size data < 2 ^ 31)%Z ->
  forall w0 : Os.World,
    exec_result (parseTomcatUserConfigFromDisk read_xml path credentials) w
    = exec_result (parseTomcatUserConfig read_xml data credentials) w0.
Proof.
  intros Hreach Hnode Hperm Hsize w0.
  pose proof (readFile_reads w path "" m data Hreach Hnode Hperm Hsize) as Hread.
  unfold exec_result in *. unfold parseTomcatUserConfigFromDisk.
  rewrite result_bind, Hread. cbn [ok getCode Z.eqb].
  apply parseTomcatUserConfig_any_state.
Qed.

(** X16.  On a regular file shorter than 2^31 bytes that the process may
    read, [parseTomcatUserConfigFromDisk] returns what
    [parseTomcatUserConfig] returns on the bytes of the file. *)
Theorem parseTomcatUserConfigFromDisk_parses_file :
  forall (read_xml : string -> reply pt.ptree) (w : Os.World) (path : string)
         (credentials : Credentials) (m : Os.meta) (data : string),
    Os.resolve w path = Os.Present (Os.RegFile m data) ->
    Os.permitted w m Os.R_BIT = true ->
    (string_size data < 2 ^ 31)%Z ->
    exec_result (parseTomcatUserConfigFromDisk read_xml path credentials) w
    = exec_result (parseTomcatUserConfig read_xml data credentials) w.
Proof.
  intros read_xml w path credentials m data Hres Hperm Hsize.
  destruct (resolve_present _ _ _ Hres) as [Hreach Hnode].
  now apply fromDisk_reads with m.
Qed.

Lemma parseTomcatUserConfigFromDisk_parses_file_witness :
  exec_result (parseTomcatUserConfigFromDisk read_examples "/tmp/shared.log" []) example_world
  = exec_result (parseTomcatUserConfig read_examples "old" []) example_world.
Proof.
  apply (parseTomcatUserConfigFromDisk_parses_file read_examples example_world
           "/tmp/shared.log" [] (Os.mkMeta 438 1001 1001) "old").
  - vm_compute. reflexivity.
  - vm_compute. reflexivity.
  - vm_compute. reflexivity.
Defined.

(** X17.  Writing a document to a path that did not exist, with a mode
    that lets the process read its own file, and then parsing that path
    from disk gives what parsing the document itself gives: the same status
    and the same credentials. *)
Theorem write_then_parse_from_disk :
  forall (read_xml : string -> reply pt.ptree) (w : Os.World) (path doc : string)
         (mode : Z) (force : bool) (credentials : Credentials),
    (string_size doc < 2 ^ 31)%Z ->
    Os.w_euid w = 0%Z \/ Z.testbit mode 8 = true ->
    Os.os_exists w path = Value false ->
    exec_result (writeTextFile path doc mode force) w = Returned (mkStatus 0 "OK") ->
    exec_result (parseTomcatUserConfigFromDisk read_xml path credentials)
                (exec_final (writeTextFile path doc mode force) w)
    = exec_result (parseTomcatUserConfig read_xml doc credentials) w.
Proof.
  intros read_xml w path doc mode force credentials Hsize Hread Hfresh Hwrite.
  assert (Hstd : std_string doc) by (unfold std_string; lia).
  destruct (writeTextFile_appends w path doc mode force Hstd Hwrite)
    as (Hproc & Hreach & m & Hnode & Hmode & Huid).
  pose proof (fresh_no_node w path Hfresh Hreach) as Hnone.
  rewrite (old_data_fresh w path Hnone) in Hnode.
  change ("" +:+ doc) with doc in Hnode.
  apply fromDisk_reads with m; try assumption.
  - now apply reachable_same_process with w.
  - unfold Os.permitted. destruct Hproc as (He & _ & _).
    rewrite He, (Huid Hnone), Z.eqb_refl.
    destruct Hread as [-> | Hbit]; [reflexivity|].
    change (Os.R_BIT + 6)%Z with 8%Z.
    rewrite (owner_read_bit _ _ Hmode), Hbit. apply orb_true_r.
Qed.

Lemma write_then_parse_from_disk_witness :
  exec_result (parseTomcatUserConfigFromDisk read_examples "/tmp/tomcat-users.xml" [])
              (exec_final (writeTextFile "/tmp/tomcat-users.xml" complete_doc 384 true)
                          example_world)
  = exec_result (parseTomcatUserConfig read_examples complete_doc []) example_world.
Proof.
  apply (write_then_parse_from_disk read_examples example_world
           "/tmp/tomcat-users.xml" complete_doc 384 true []).
  - vm_compute. reflexivity.
  - right. vm_compute. reflexivity.
  - vm_compute. reflexivity.
  - vm_compute. reflexivity.
Defined.

(** In the example world the credentials come back from disk. *)
Example parse_written_config :
  exec_result (parseTomcatUserConfigFromDisk read_examples "/tmp/tomcat-users.xml" [])
              (exec_final (writeTextFile "/tmp/tomcat-users.xml" complete_doc 384 true)
                          example_world)
  = Returned (mkStatus 0 "OK", [("alice", "secret1"); ("bob", "secret2")]).
Proof. vm_compute. reflexivity. Qed.

(** ** isWritable and isReadable *)

Section AccessFacts.

Context {St : Type}.
Variable handle : forall X : Type, xcall X -> St -> X * St.

Lemma xresult_bind_lift {A B : Type} (m : Sys A) (f : A -> XSys B) (s : St) :
  xresult handle (xbind (lift m) f) s
  = match result (fun X c => handle X (base c)) m s with
    | Returned a => xresult handle (f a) (final (fun X c => handle X (base c)) m s)
    | Thrown e => Thrown e
    end.
Proof.
  revert s. induction m as [a|e|X c k IH]; intros s; try reflexivity.
  cbn [lift xbind]. unfold xresult at 1. cbn [xrun fst].
  rewrite result_call, final_call. apply IH.
Qed.

Lemma accesses_bind_lift {A B : Type} (m : Sys A) (f : A -> XSys B) (s : St) :
  accesses (xtrace handle (xbind (lift m) f) s)
  = match result (fun X c => handle X (base c)) m s with
    | Returned a =>
        accesses (xtrace handle (f a) (final (fun X c => handle X (base c)) m s))
    | Thrown e => 0%nat
    end.
Proof.
  revert s. induction m as [a|e|X c k IH]; intros s; try reflexivity.
  cbn [lift xbind]. unfold xtrace at 1. cbn [xrun snd].
  rewrite result_call, final_call. unfold accesses at 1.
  cbn [List.filter is_access]. apply IH.
Qed.

End AccessFacts.

(** X18.  Whatever the operating system answers: when the existence check
    of [isWritable] or [isReadable] returns a failure, the function returns
    that same status and does not call [access]; when it succeeds, the
    function returns [Status(0, "OK")] if [access] answers 0 and
    [Status(1, "Path is not writable.")], respectively
    [Status(1, "Path is not readable.")], on any other answer. *)
Theorem isWritable_isReadable_outcomes :
  forall (St : Type) (handle : forall X : Type, xcall X -> St -> X * St) (s : St)
         (path : string) (st : Status),
    let handle_base := fun (X : Type) (c : call X) => handle X (base c) in
    let s1 := final handle_base (pathExists path) s in
    result handle_base (pathExists path) s = Returned st ->
    (getCode st <> 0%Z ->
     xresult handle (isWritable path) s = Returned st
     /\ accesses (xtrace handle (isWritable path) s) = 0%nat
     /\ xresult handle (isReadable path) s = Returned st
     /\ accesses (xtrace handle (isReadable path) s) = 0%nat)
    /\ (getCode st = 0%Z ->
        xresult handle (isWritable path) s
        = Returned (if (fst (handle _ (c_access path W_OK) s1) =? 0)%Z
                    then mkStatus 0 "OK" else mkStatus 1 "Path is not writable.")
        /\ xresult handle (isReadable path) s
           = Returned (if (fst (handle _ (c_access path R_OK) s1) =? 0)%Z
                       then mkStatus 0 "OK" else mkStatus 1 "Path is not readable.")).
Proof.
  intros St handle s path st handle_base s1 Hres.
  subst handle_base s1. unfold isWritable, isReadable.
  rewrite !xresult_bind_lift, !accesses_bind_lift, Hres. split.
  - intros Hcode.
    assert (Hok : ok st = false) by (unfold ok; now apply Z.eqb_neq).
    rewrite Hok. repeat split; reflexivity.
  - intros Hcode.
    assert (Hok : ok st = true) by (unfold ok; now apply Z.eqb_eq).
    rewrite Hok. cbn [negb]. unfold xresult. cbn [xrun fst].
    split.
    + now destruct (fst (handle _ (c_access path W_OK) _) =? 0)%Z.
    + now destruct (fst (handle _ (c_access path R_OK) _) =? 0)%Z.
Qed.

Lemma isWritable_isReadable_outcomes_witness :
  (xresult xhandle (isWritable "") example_world = Returned (mkStatus 1 "-1")
   /\ accesses (xtrace xhandle (isWritable "") example_world) = 0%nat
   /\ xresult xhandle (isReadable "") example_world = Returned (mkStatus 1 "-1")
   /\ accesses (xtrace xhandle (isReadable "") example_world) = 0%nat)
  /\ (xresult xhandle (isWritable "/tmp/shared.log") example_world
      = Returned (mkStatus 0 "OK")
      /\ xresult xhandle (isReadable "/secret") example_world
         = Returned (mkStatus 1 "Path is not readable.")).
Proof.
  split.
  - apply (isWritable_isReadable_outcomes Os.World xhandle example_world ""
             (mkStatus 1 "-1")); [reflexivity | simpl; lia].
  - split.
    + apply (isWritable_isReadable_outcomes Os.World xhandle example_world
               "/tmp/shared.log" (mkStatus 0 "1")); [vm_compute; reflexivity | reflexivity].
    + apply (isWritable_isReadable_outcomes Os.World xhandle example_world
               "/secret" (mkStatus 0 "1")); [vm_compute; reflexivity | reflexivity].
Defined.

(** ** writeTextFile: what a failed mode change leaves, and the descriptor *)

Lemma os_chmod_failed (w w2 : Os.World) (path : string) (mode rc : Z) :
  Os.os_chmod w path mode = (rc, w2) -> rc <> 0%Z -> w2 = w.
Proof.
  unfold Os.os_chmod.
  destruct (Os.resolve w path) as [| |n]; try (intros H _; now inversion H).
  destruct ((Os.w_euid w =? 0)%Z || (Os.st_uid (Os.meta_of n) =? Os.w_euid w)%Z);
    intros H Hrc; inversion H; subst; [congruence | reflexivity].
Qed.

(** [open] with the flags of [writeTextFile], when it succeeds, has either
    changed no file or created an empty file that the process owns. *)
Lemma os_open_nodes (w w1 : Os.World) (path : string) (mode fd : Z) :
  Os.os_open w path write_flags mode = (fd, w1) ->
  (0 < fd)%Z ->
  Os.w_nodes w1 = Os.w_nodes w
  \/ (Os.w_nodes w !! path = None
      /\ exists m, Os.w_nodes w1 !! path = Some (Os.RegFile m "")
                   /\ Os.st_uid m = Os.w_euid w).
Proof.
  intros Hopen Hfd.
  destruct (os_open_write _ _ _ _ _ Hopen Hfd) as (_ & _ & _ & m & Hnode & Huid).
  destruct (Os.w_nodes w !! path) as [[m0 data|m0 es]|] eqn:Hold.
  - left. now destruct (os_open_existing _ _ _ _ _ _ _ Hold Hopen Hfd) as (_ & _ & H & _).
  - exfalso. unfold Os.os_open in Hopen.
    destruct write_flags_facts as (Hsup & Hacc & Hcreat & _).
    rewrite Hsup, Hacc, Hcreat in Hopen. cbn [negb] in Hopen.
    unfold Os.resolve in Hopen.
    destruct (String.eqb path "") eqn:Hempty.
    { apply String.eqb_eq in Hempty. subst path.
      cbn in Hopen. inversion Hopen; subst. lia. }
    destruct (bool_decide (path ∈ Os.w_denied w)); [inversion Hopen; subst; lia|].
    rewrite Hold in Hopen. change (1 =? 0)%Z with false in Hopen.
    cbn [andb] in Hopen. inversion Hopen; subst. lia.
  - right. split; [reflexivity|]. exists m.
    rewrite (old_data_fresh w path Hold) in Hnode. auto.
Qed.

(** X19.  When [writeTextFile] fails with "Failed to change permissions",
    no file has changed: the file was there before the call, and its
    content, mode and owner are what they were.  (The failure can only come
    from a file of another user; a file the call has just created takes the
    mode change.) *)
Theorem writeTextFile_chmod_failure_changes_no_file :
  forall (w : Os.World) (path content : string) (mode : Z) (force : bool),
    exec_result (writeTextFile path content mode force) w
    = Returned (mkStatus 1 "Failed to change permissions") ->
    Os.w_nodes (exec_final (writeTextFile path content mode force) w) = Os.w_nodes w
    /\ exists m data, Os.w_nodes w !! path = Some (Os.RegFile m data).
Proof.
  intros w path content mode force Hres.
  pose proof (writeTextFile_exec w path content mode force) as Hrun.
  cbv zeta in Hrun. rewrite Hres in Hrun.
  destruct (Os.os_open w path write_flags mode) as [fd w1] eqn:Hopen.
  cbn [fst snd] in Hrun.
  destruct (fd <=? 0)%Z eqn:Hfd; [inversion Hrun|]. apply Z.leb_gt in Hfd.
  destruct (Os.os_chmod w1 path mode) as [rc w2] eqn:Hchmod. cbn [fst snd] in Hrun.
  destruct (rc =? 0)%Z eqn:Hrc; cbn [negb] in Hrun.
  { destruct (to_size_t _ =? _)%Z; inversion Hrun. }
  apply Z.eqb_neq in Hrc.
  apply pair_equal_spec in Hrun. destruct Hrun as [_ Hfinal]. rewrite Hfinal.
  pose proof (os_chmod_failed _ _ _ _ _ Hchmod Hrc) as ->.
  destruct (os_open_write _ _ _ _ _ Hopen Hfd) as (P1 & Hreach & _ & m1 & Hnode1 & _).
  destruct (os_open_nodes _ _ _ _ _ Hopen Hfd) as [Hsame | (Hnone & m & Hnew & Huid)].
  - split; [exact Hsame|]. rewrite Hsame in Hnode1. eauto.
  - exfalso. apply Hrc.
    pose proof (reachable_same_process _ _ _ P1 Hreach) as [Hne Hden].
    unfold Os.os_chmod, Os.resolve in Hchmod.
    rewrite Hne, Hden, Hnew in Hchmod. cbn [Os.meta_of] in Hchmod.
    destruct P1 as (He & _). rewrite Huid, He, Z.eqb_refl, orb_true_r in Hchmod.
    now inversion Hchmod.
Qed.

Lemma writeTextFile_chmod_failure_changes_no_file_witness :
  Os.w_nodes (exec_final (writeTextFile "/tmp/shared.log" "x" 384 true) example_world)
  = Os.w_nodes example_world
  /\ exists m data,
       Os.w_nodes example_world !! "/tmp/shared.log" = Some (Os.RegFile m data).
Proof.
  apply (writeTextFile_chmod_failure_changes_no_file example_world
           "/tmp/shared.log" "x" 384 true).
  vm_compute. reflexivity.
Defined.

Lemma os_write_fds (w w3 : Os.World) (fd n : Z) (buf : string) (count : Z) :
  Os.os_write w fd buf count = (n, w3) ->
  is_Some (Os.w_fds w !! fd) -> is_Some (Os.w_fds w3 !! fd).
Proof.
  unfold Os.os_write. intros H [d Hd]. rewrite Hd in H.
  destruct ((Os.accmode (Os.fd_flags d) =? 0)%Z || (count <? 0)%Z);
    [inversion H; subst; eauto|].
  destruct (Os.w_nodes w !! Os.fd_path d) as [[m data|m es]|];
    try (inversion H; subst; eauto; fail).
  destruct ((0 <? count)%Z && (Z.max 0 (Os.w_space w) =? 0)%Z);
    inversion H; subst; [eauto|].
  cbn. rewrite lookup_insert_eq. eauto.
Qed.

(** X20.  After a call that returns [Status(0, "OK")] or "Failed to write
    contents", the descriptor that [open] answered is no longer in the
    descriptor table of the process. *)
Theorem writeTextFile_releases_descriptor_after_write :
  forall (w : Os.World) (path content : string) (mode : Z) (force : bool),
    exec_result (writeTextFile path content mode force) w = Returned (mkStatus 0 "OK")
    \/ exec_result (writeTextFile path content mode force) w
       = Returned (mkStatus 1 "Failed to write contents") ->
    Os.w_fds (exec_final (writeTextFile path content mode force) w)
      !! fst (Os.os_open w path write_flags mode)
    = None.
Proof.
  intros w path content mode force Hres.
  pose proof (writeTextFile_exec w path content mode force) as Hrun.
  cbv zeta in Hrun.
  destruct (Os.os_open w path write_flags mode) as [fd w1] eqn:Hopen.
  cbn [fst snd] in *.
  destruct (fd <=? 0)%Z eqn:Hfd.
  { apply pair_equal_spec in Hrun. destruct Hrun as [Hr _].
    rewrite Hr in Hres. destruct Hres as [H|H]; inversion H. }
  apply Z.leb_gt in Hfd.
  destruct (Os.os_chmod w1 path mode) as [rc w2] eqn:Hchmod. cbn [fst snd] in Hrun.
  destruct (rc =? 0)%Z eqn:Hrc; cbn [negb] in Hrun.
  2:{ apply pair_equal_spec in Hrun. destruct Hrun as [Hr _].
      rewrite Hr in Hres. destruct Hres as [H|H]; inversion H. }
  apply Z.eqb_eq in Hrc. subst rc.
  destruct (Os.os_write w2 fd content (string_size content)) as [n w3] eqn:Hwrite.
  cbn [fst snd] in Hrun.
  assert (Hfinal : exec_final (writeTextFile path content mode force) w
                   = snd (Os.os_close w3 fd)).
  { destruct (negb (to_size_t n =? string_size content)%Z);
      now apply pair_equal_spec in Hrun. }
  rewrite Hfinal.
  destruct (os_open_write _ _ _ _ _ Hopen Hfd) as (P1 & Hreach & Hfds & m & Hnode & _).
  pose proof (reachable_same_process _ _ _ P1 Hreach) as Hreach1.
  destruct (os_chmod_ok _ _ _ _ _ _ Hchmod Hreach1 Hnode) as (_ & Hfds2 & _).
  rewrite <- Hfds2 in Hfds.
  destruct (os_write_fds _ _ _ _ _ _ Hwrite (ex_intro _ _ Hfds)) as [d Hd].
  unfold Os.os_close. rewrite Hd. cbn. apply lookup_delete_eq.
Qed.

Lemma writeTextFile_releases_descriptor_after_write_witness :
  Os.w_fds (exec_final (writeTextFile "/tmp/fresh" "xyz" 384 true) full_disk_world)
    !! fst (Os.os_open full_disk_world "/tmp/fresh" write_flags 384)
  = None.
Proof.
  apply (writeTextFile_releases_descriptor_after_write full_disk_world
           "/tmp/fresh" "xyz" 384 true).
  right. vm_compute. reflexivity.
Defined.

(** ** Exceptions that leave the functions *)

(** X21.  Whatever the operating system does otherwise: when
    [boost::filesystem::exists] throws, the exception leaves [pathExists],
    [readFile] and [parseTomcatUserConfigFromDisk], which return no status,
    while [listFilesInDirectory] catches it and returns a failure with its
    text and [results] as it was; when [boost::filesystem::is_directory]
    throws, the exception leaves [isDirectory] and [getDirectory]. *)
Theorem filesystem_errors_escape_the_unguarded_functions :
  forall (St : Type) (handle : forall X : Type, call X -> St -> X * St) (s : St)
         (read_xml : string -> reply pt.ptree) (parent_path : string -> string)
         (path dirpath content : string) (results : list string)
         (credentials : Credentials),
    path <> "" ->
    (forall what,
       fst (handle _ (fs_exists path) s) = Raised what ->
       result handle (pathExists path) s = Thrown (filesystem_error what)
       /\ result handle (readFile path content) s = Thrown (filesystem_error what)
       /\ result handle (parseTomcatUserConfigFromDisk read_xml path credentials) s
          = Thrown (filesystem_error what)
       /\ result handle (listFilesInDirectory path results) s
          = Returned (mkStatus 1 what, results))
    /\ (forall what,
          fst (handle _ (fs_is_directory path) s) = Raised what ->
          result handle (isDirectory path) s = Thrown (filesystem_error what)
          /\ result handle (getDirectory parent_path path dirpath) s
             = Thrown (filesystem_error what)).
Proof.
  intros St handle s read_xml parent_path path dirpath content results credentials Hne.
  split.
  - intros what Hex.
    assert (Hpe : result handle (pathExists path) s = Thrown (filesystem_error what)).
    { unfold pathExists. destruct path as [|c p]; [congruence|].
      cbn [String.length Nat.eqb bind unguarded]. rewrite result_call, Hex.
      reflexivity. }
    split; [exact Hpe|]. split; [|split].
    + unfold readFile. now rewrite result_bind, Hpe.
    + unfold parseTomcatUserConfigFromDisk, readFile.
      now rewrite !result_bind, Hpe.
    + unfold listFilesInDirectory. cbn [bind sys]. rewrite result_call, Hex.
      reflexivity.
  - intros what Hdir.
    assert (Hid : result handle (isDirectory path) s = Thrown (filesystem_error what)).
    { unfold isDirectory. cbn [bind unguarded]. rewrite result_call, Hdir.
      reflexivity. }
    split; [exact Hid|].
    unfold getDirectory. now rewrite result_bind, Hid.
Qed.

Lemma filesystem_errors_escape_the_unguarded_functions_witness :
  result Os.handle (pathExists "/root/key") guarded_world
  = Thrown (filesystem_error (Os.fs_what "status" "Permission denied" "/root/key"))
  /\ result Os.handle (listFilesInDirectory "/root/key" ["kept"]) guarded_world
     = Returned (mkStatus 1 (Os.fs_what "status" "Permission denied" "/root/key"),
                 ["kept"])
  /\ result Os.handle (getDirectory dirname "/root/key" "before") guarded_world
     = Thrown (filesystem_error (Os.fs_what "status" "Permission denied" "/root/key")).
Proof.
  destruct (filesystem_errors_escape_the_unguarded_functions Os.World Os.handle
              guarded_world read_examples dirname "/root/key" "before" "" ["kept"] [])
    as [Hex Hdir]; [discriminate|].
  destruct (Hex (Os.fs_what "status" "Permission denied" "/root/key"))
    as (H1 & _ & _ & H4); [vm_compute; reflexivity|].
  destruct (Hdir (Os.fs_what "status" "Permission denied" "/root/key"))
    as (_ & H6); [vm_compute; reflexivity|].
  split; [exact H1 | split; [exact H4 | exact H6]].
Defined.
